(** * Jedawel LensSafe: the eye-rubbing decision engine of [baby_monitor.py]

    A shallow embedding of class [BabyMonitor]: eye-region extraction, the
    proximity/depth test, the sliding-window motion estimate, the per-frame
    decision and the consecutive-frame / cooldown alert logic.

    Numbers.  Python floats and numpy float64 values are read as real
    numbers ([R]); [np.sqrt] is [sqrt], [np.mean] is sum divided by count,
    and the comparisons [<], [<=], [>=] are the order of [R].  Rounding is
    outside the model.  Python integers ([consecutive_detections], the
    frame size, the integer configuration entries) are [Z].

    Effects.  The monitor object is a record threaded through every method;
    a method that mutates [self] returns the new record.  A failing index
    lookup ([landmark[idx]] raising) is [None] in the [Exc] monad.  The
    wall clock read by [trigger_alert] is an argument, and what the method
    prints or plays is returned as a list of alert events. *)

From Stdlib Require Import Reals Lra Lia ZArith List Bool.
Import ListNotations.

Local Open Scope R_scope.

(* ------------------------------------------------------------------ *)
(** ** Boolean comparisons on real numbers *)

Module Cmp.

Definition ltb (a b : R) : bool := if Rlt_dec a b then true else false.
Definition leb (a b : R) : bool := if Rle_dec a b then true else false.
(** Python's [a >= b]. *)
Definition geb (a b : R) : bool := leb b a.

End Cmp.

(* ------------------------------------------------------------------ *)
(** ** Exceptions: a lookup that raises aborts the whole call *)

Definition Exc (A : Type) : Type := option A.

Definition ret {A} (a : A) : Exc A := Some a.

Definition bind {A B} (m : Exc A) (k : A -> Exc B) : Exc B :=
  match m with
  | Some a => k a
  | None => None
  end.

Notation "x <- m ;; k" := (bind m (fun x => k))
  (at level 61, m at next level, right associativity).
Notation "' p <- m ;; k" := (bind m (fun p => k))
  (at level 61, p pattern, m at next level, right associativity).

(** [for x in xs: ys.append(f x)], any raise aborting the loop. *)
Fixpoint mapM {A B} (f : A -> Exc B) (xs : list A) : Exc (list B) :=
  match xs with
  | [] => ret []
  | a :: rest => b <- f a ;; bs <- mapM f rest ;; ret (b :: bs)
  end.

(* ------------------------------------------------------------------ *)
(** ** Data model *)

(** A 2D pixel position, [np.array([x, y])]. *)
Definition Point : Type := (R * R)%type.

Module Landmark.
(** One normalized landmark of the perception pipeline. *)
Record t : Type := mk { x : R; y : R; z : R }.
End Landmark.

(** A face or hand landmark set; [landmark ls idx] is [ls.landmark[idx]],
    [None] when the index is not there. *)
Record LandmarkSet : Type := { landmark : nat -> option Landmark.t }.

(** [mp.solutions.hands.HandLandmark.INDEX_FINGER_TIP]. *)
Definition INDEX_FINGER_TIP : nat := 8.

(** The ["detection"] and ["alert"] sections of the configuration.  An
    entry read with [.get(key, default)] may be missing. *)
Record DetectionConfig : Type := {
  eye_rub_threshold : R;
  depth_threshold : option R;
  min_detection_confidence : R;
  min_tracking_confidence : R;
  consecutive_frames_threshold : Z;
  motion_threshold : option R;
  motion_history_frames : option Z
}.

Record AlertConfig : Type := {
  sound_enabled : bool;
  alert_cooldown_seconds : R;
  visual_alert_enabled : bool
}.

Record Config : Type := {
  detection : DetectionConfig;
  alert : AlertConfig
}.

(** [d.get(key, default)]. *)
Definition get {A} (entry : option A) (default : A) : A :=
  match entry with
  | Some v => v
  | None => default
  end.

Definition get_default_config : Config :=
  {| detection :=
       {| eye_rub_threshold := 0.15;
          depth_threshold := Some 0.05;
          min_detection_confidence := 0.5;
          min_tracking_confidence := 0.5;
          consecutive_frames_threshold := 3;
          motion_threshold := Some 0.01;
          motion_history_frames := Some 5%Z |};
     alert :=
       {| sound_enabled := false;
          alert_cooldown_seconds := 5;
          visual_alert_enabled := true |} |}.

(** The mutable attributes of a [BabyMonitor] instance. *)
Record BabyMonitor : Type := {
  config : Config;
  last_alert_time : R;
  consecutive_detections : Z;
  alert_cooldown : R;
  hand_position_history : list Point;
  max_history_frames : Z;
  self_sound_enabled : bool
}.

(** [__init__]; [mixer_ok] says whether pygame is importable and its mixer
    initialised. *)
Definition init (cfg : Config) (mixer_ok : bool) : BabyMonitor :=
  {| config := cfg;
     last_alert_time := 0;
     consecutive_detections := 0;
     alert_cooldown := alert_cooldown_seconds (alert cfg);
     hand_position_history := [];
     max_history_frames := get (motion_history_frames (detection cfg)) 5%Z;
     self_sound_enabled := mixer_ok && sound_enabled (alert cfg) |}.

Definition set_hand_position_history (self : BabyMonitor) (h : list Point)
  : BabyMonitor :=
  {| config := config self;
     last_alert_time := last_alert_time self;
     consecutive_detections := consecutive_detections self;
     alert_cooldown := alert_cooldown self;
     hand_position_history := h;
     max_history_frames := max_history_frames self;
     self_sound_enabled := self_sound_enabled self |}.

Definition set_last_alert_time (self : BabyMonitor) (t : R) : BabyMonitor :=
  {| config := config self;
     last_alert_time := t;
     consecutive_detections := consecutive_detections self;
     alert_cooldown := alert_cooldown self;
     hand_position_history := hand_position_history self;
     max_history_frames := max_history_frames self;
     self_sound_enabled := self_sound_enabled self |}.

Definition set_consecutive_detections (self : BabyMonitor) (n : Z)
  : BabyMonitor :=
  {| config := config self;
     last_alert_time := last_alert_time self;
     consecutive_detections := n;
     alert_cooldown := alert_cooldown self;
     hand_position_history := hand_position_history self;
     max_history_frames := max_history_frames self;
     self_sound_enabled := self_sound_enabled self |}.

(* ------------------------------------------------------------------ *)
(** ** Distance and motion *)

(** [np.mean] of a sequence of numbers. *)
Definition np_sum (l : list R) : R := fold_right Rplus 0 l.
Definition np_mean (l : list R) : R := np_sum l / INR (length l).

(** [np.mean(points, axis=0)]: the mean of each coordinate. *)
Definition np_mean_axis0 (pts : list Point) : Point :=
  (np_mean (map fst pts), np_mean (map snd pts)).

Definition calculate_distance (point1 point2 : Point) : R :=
  sqrt ((fst point1 - fst point2) ^ 2 + (snd point1 - snd point2) ^ 2).

(** [list.pop(0)] on a list that is not empty. *)
Definition pop0 {A} (l : list A) : list A := tl l.

(** The history as [calculate_hand_motion] leaves it: the position is
    appended, and one entry is dropped from the front when the length then
    exceeds [max_history_frames]. *)
Definition push_history (max_frames : Z) (history : list Point)
    (current_position : Point) : list Point :=
  let appended := history ++ [current_position] in
  if (Z.of_nat (length appended) >? max_frames)%Z then pop0 appended
  else appended.

(** The loop [for i in range(1, len(history))] collecting
    [calculate_distance(history[i - 1], history[i])]. *)
Definition motions_of (history : list Point) : list R :=
  map (fun i => calculate_distance (nth (i - 1) history (0, 0))
                                   (nth i history (0, 0)))
      (seq 1 (length history - 1)).

Definition calculate_hand_motion (self : BabyMonitor)
    (current_position : Point) : BabyMonitor * R :=
  let history :=
    push_history (max_history_frames self) (hand_position_history self)
                 current_position in
  let self := set_hand_position_history self history in
  if (length history <? 2)%nat then (self, 0)
  else
    let motions := motions_of history in
    (self, match motions with [] => 0 | _ => np_mean motions end).

(* ------------------------------------------------------------------ *)
(** ** Eye regions *)

Definition left_eye_indices : list nat := [33; 133; 160; 159; 158; 157; 173]%nat.
Definition right_eye_indices : list nat := [362; 263; 387; 386; 385; 384; 398]%nat.

(** [[landmark.x * image_width, landmark.y * image_height]]. *)
Definition to_pixels (lm : Landmark.t) (image_width image_height : Z) : Point :=
  (Landmark.x lm * IZR image_width, Landmark.y lm * IZR image_height).

Definition get_eye_regions (face_landmarks : LandmarkSet)
    (image_width image_height : Z) : Exc (Point * Point * R * R) :=
  left_lms <- mapM (landmark face_landmarks) left_eye_indices ;;
  right_lms <- mapM (landmark face_landmarks) right_eye_indices ;;
  let left_eye_points :=
    map (fun lm => to_pixels lm image_width image_height) left_lms in
  let left_eye_depths := map Landmark.z left_lms in
  let right_eye_points :=
    map (fun lm => to_pixels lm image_width image_height) right_lms in
  let right_eye_depths := map Landmark.z right_lms in
  let left_eye_center := np_mean_axis0 left_eye_points in
  let right_eye_center := np_mean_axis0 right_eye_points in
  let left_eye_depth := np_mean left_eye_depths in
  let right_eye_depth := np_mean right_eye_depths in
  ret (left_eye_center, right_eye_center, left_eye_depth, right_eye_depth).

(* ------------------------------------------------------------------ *)
(** ** The per-frame decision *)

(** The test written out once for each eye in [detect_eye_rubbing]:
    [normalized_dist < threshold and depth_diff <= depth_threshold]. *)
Definition eye_close (index_pos : Point) (index_depth : R)
    (eye_center : Point) (eye_depth : R) (image_width : Z)
    (threshold depth_thr : R) : bool :=
  let dist_to_eye := calculate_distance index_pos eye_center in
  let normalized_dist := dist_to_eye / IZR image_width in
  let depth_diff := Rabs (index_depth - eye_depth) in
  Cmp.ltb normalized_dist threshold && Cmp.leb depth_diff depth_thr.

(** [is_near_eye = left_eye_close or right_eye_close]. *)
Definition is_near_eye (cfg : Config) (regions : Point * Point * R * R)
    (index_pos : Point) (index_depth : R) (image_width : Z) : bool :=
  let '(left_eye_center, right_eye_center, left_eye_depth, right_eye_depth) :=
    regions in
  let threshold := eye_rub_threshold (detection cfg) in
  let depth_thr := get (depth_threshold (detection cfg)) 0.05 in
  let left_eye_close :=
    eye_close index_pos index_depth left_eye_center left_eye_depth
              image_width threshold depth_thr in
  let right_eye_close :=
    eye_close index_pos index_depth right_eye_center right_eye_depth
              image_width threshold depth_thr in
  left_eye_close || right_eye_close.

Definition detect_eye_rubbing (self : BabyMonitor)
    (face_landmarks hand_landmarks : option LandmarkSet)
    (image_width image_height : Z) : Exc (BabyMonitor * bool) :=
  match face_landmarks, hand_landmarks with
  | Some face, Some hand =>
      regions <- get_eye_regions face image_width image_height ;;
      index_finger_tip <- landmark hand INDEX_FINGER_TIP ;;
      let index_pos := to_pixels index_finger_tip image_width image_height in
      let index_depth := Landmark.z index_finger_tip in
      let near := is_near_eye (config self) regions index_pos index_depth
                              image_width in
      let '(self, hand_motion) := calculate_hand_motion self index_pos in
      let normalized_motion := hand_motion / IZR image_width in
      let motion_thr := get (motion_threshold (detection (config self))) 0.01 in
      let is_rubbing := near && Cmp.geb normalized_motion motion_thr in
      let self :=
        if negb near then set_hand_position_history self [] else self in
      ret (self, is_rubbing)
  | _, _ => ret (set_hand_position_history self [], false)
  end.

(* ------------------------------------------------------------------ *)
(** ** Alerts *)

(** One alert as the caregiver gets it: the console banner, with the
    sound when sound is enabled. *)
Record AlertEvent : Type := { alert_time : R; alert_sound : bool }.

(** [current_time] is the value [time.time()] returns inside the call. *)
Definition trigger_alert (self : BabyMonitor) (current_time : R)
  : BabyMonitor * list AlertEvent :=
  if Cmp.ltb (current_time - last_alert_time self) (alert_cooldown self)
  then (self, [])
  else (set_last_alert_time self current_time,
        [ {| alert_time := current_time;
             alert_sound := self_sound_enabled self |} ]).

(** Python truth value of [results.multi_..._landmarks]: [None] and the
    empty list are both false. *)
Definition truthy {A} (o : option (list A)) : list A :=
  match o with
  | Some l => l
  | None => []
  end.

(** The loop over the detected hands, each checked against the first face;
    a single [True] sets [is_rubbing]. *)
Fixpoint check_hands (self : BabyMonitor) (face : LandmarkSet)
    (hands : list LandmarkSet) (width height : Z) (is_rubbing : bool)
  : Exc (BabyMonitor * bool) :=
  match hands with
  | [] => ret (self, is_rubbing)
  | hand_landmarks :: rest =>
      '(self, detected) <-
        detect_eye_rubbing self (Some face) (Some hand_landmarks) width height ;;
      check_hands self face rest width height
                  (if detected then true else is_rubbing)
  end.

(** Lines 337-369 of [process_frame]: the per-frame rubbing signal.  The
    eye regions of every face are computed for drawing, then the hands are
    checked. *)
Definition frame_signal (self : BabyMonitor)
    (multi_face_landmarks multi_hand_landmarks : option (list LandmarkSet))
    (width height : Z) : Exc (BabyMonitor * bool) :=
  let faces := truthy multi_face_landmarks in
  _ <- mapM (fun f => get_eye_regions f width height) faces ;;
  match faces with
  | face0 :: _ =>
      check_hands self face0 (truthy multi_hand_landmarks) width height false
  | [] => ret (self, false)
  end.

(** Lines 371-377 of [process_frame]: the consecutive counter and the
    alert attempt. *)
Definition handle_detection (self : BabyMonitor) (is_rubbing : bool)
    (current_time : R) : BabyMonitor * list AlertEvent :=
  if is_rubbing then
    let self :=
      set_consecutive_detections self (consecutive_detections self + 1)%Z in
    if (consecutive_detections self
          >=? consecutive_frames_threshold (detection (config self)))%Z
    then trigger_alert self current_time
    else (self, [])
  else (set_consecutive_detections self 0%Z, []).

Definition process_frame (self : BabyMonitor)
    (multi_face_landmarks multi_hand_landmarks : option (list LandmarkSet))
    (width height : Z) (current_time : R)
  : Exc (BabyMonitor * bool * list AlertEvent) :=
  '(self, is_rubbing) <-
    frame_signal self multi_face_landmarks multi_hand_landmarks width height ;;
  let '(self, events) := handle_detection self is_rubbing current_time in
  ret (self, is_rubbing, events).

(** The run of [detect_eye_rubbing] over successive frames with the same
    face, one fingertip landmark set per frame; the results in call order. *)
Fixpoint detect_sequence (self : BabyMonitor) (face : option LandmarkSet)
    (hands : list (option LandmarkSet)) (image_width image_height : Z)
  : Exc (BabyMonitor * list bool) :=
  match hands with
  | [] => ret (self, [])
  | hand :: rest =>
      '(self, r) <- detect_eye_rubbing self face hand image_width image_height ;;
      '(self, rs) <- detect_sequence self face rest image_width image_height ;;
      ret (self, r :: rs)
  end.

(** Successive calls of [calculate_hand_motion], the velocities dropped. *)
Definition observe_all (self : BabyMonitor) (positions : list Point)
  : BabyMonitor :=
  fold_left (fun s p => fst (calculate_hand_motion s p)) positions self.

(** Successive alert attempts at the given clock readings; the alerts
    emitted, in order. *)
Fixpoint attempts (self : BabyMonitor) (times : list R)
  : BabyMonitor * list AlertEvent :=
  match times with
  | [] => (self, [])
  | t :: rest =>
      let '(self, events) := trigger_alert self t in
      let '(self, later) := attempts self rest in
      (self, events ++ later)
  end.

(** The velocity the specification describes: the distances between
    neighbours of the history, averaged. *)
Fixpoint consecutive_distances (history : list Point) : list R :=
  match history with
  | p :: (q :: _) as rest => calculate_distance p q :: consecutive_distances rest
  | _ => []
  end.

(* ------------------------------------------------------------------ *)
(** ** The monitoring loop *)

(** What one iteration of the loop hands to [process_frame]: the landmark
    results of the perception pipeline on the frame, the frame size, and
    the clock reading [trigger_alert] would get. *)
Record Frame : Type := {
  frame_faces : option (list LandmarkSet);
  frame_hands : option (list LandmarkSet);
  frame_width : Z;
  frame_height : Z;
  frame_clock : R
}.

(** [process_frame] on successive frames, as the loops of [run] and of
    [example_programmatic_monitoring] call it; for every frame the rubbing
    signal and the alerts emitted. *)
Fixpoint process_frames (self : BabyMonitor) (frames : list Frame)
  : Exc (BabyMonitor * list (bool * list AlertEvent)) :=
  match frames with
  | [] => ret (self, [])
  | f :: rest =>
      '(self, is_rubbing, events) <-
        process_frame self (frame_faces f) (frame_hands f)
                      (frame_width f) (frame_height f) (frame_clock f) ;;
      '(self, outs) <- process_frames self rest ;;
      ret (self, (is_rubbing, events) :: outs)
  end.

(** The FPS attributes of the monitor, which no other method reads. *)
Record FpsState : Type := {
  fps_start_time : R;
  fps_frame_count : Z;
  current_fps : R
}.

(** The FPS attributes as [__init__] sets them; [now] is [time.time()]. *)
Definition init_fps (now : R) : FpsState :=
  {| fps_start_time := now; fps_frame_count := 0; current_fps := 0 |}.

(** [update_fps]; [now] is the clock read for [elapsed_time], [restart]
    the clock read again when the counter is reset. *)
Definition update_fps (fps : FpsState) (now restart : R) : FpsState :=
  let count := (fps_frame_count fps + 1)%Z in
  let elapsed_time := now - fps_start_time fps in
  if Cmp.ltb 1.0 elapsed_time
  then {| fps_start_time := restart;
          fps_frame_count := 0;
          current_fps := IZR count / elapsed_time |}
  else {| fps_start_time := fps_start_time fps;
          fps_frame_count := count;
          current_fps := current_fps fps |}.

(** One turn of the [while True] loop of [run] as the outside world
    decides it: whether [cap.read()] returned a frame, the frame, the two
    clock readings of [update_fps], and whether the key read by
    [cv2.waitKey] is [q]. *)
Record Tick : Type := {
  grabbed : bool;
  tick_frame : Frame;
  tick_fps_now : R;
  tick_fps_restart : R;
  quit_key : bool
}.

(** The loop of [run] over the turns observed so far: a failed read
    breaks before the frame is processed, [q] breaks after it. *)
Fixpoint run_loop (self : BabyMonitor) (fps : FpsState) (ticks : list Tick)
  : Exc (BabyMonitor * FpsState * list (bool * list AlertEvent)) :=
  match ticks with
  | [] => ret (self, fps, [])
  | t :: rest =>
      if negb (grabbed t) then ret (self, fps, [])
      else
        let f := tick_frame t in
        '(self, is_rubbing, events) <-
          process_frame self (frame_faces f) (frame_hands f)
                        (frame_width f) (frame_height f) (frame_clock f) ;;
        let fps := update_fps fps (tick_fps_now t) (tick_fps_restart t) in
        if quit_key t then ret (self, fps, [(is_rubbing, events)])
        else
          '(self, fps, outs) <- run_loop self fps rest ;;
          ret (self, fps, (is_rubbing, events) :: outs)
  end.

(** The turns of the loop whose frame gets processed. *)
Fixpoint processed (ticks : list Tick) : list Tick :=
  match ticks with
  | [] => []
  | t :: rest =>
      if negb (grabbed t) then []
      else if quit_key t then [t]
      else t :: processed rest
  end.

(** Successive calls of [update_fps], each with its two clock readings. *)
Definition fps_run (fps : FpsState) (clocks : list (R * R)) : FpsState :=
  fold_left (fun s c => update_fps s (fst c) (snd c)) clocks fps.

(** Alert times that keep the cooldown: each is at least [cooldown] after
    the one before, the first after [last]. *)
Fixpoint spaced (cooldown last : R) (times : list R) : Prop :=
  match times with
  | [] => True
  | t :: rest => cooldown <= t - last /\ spaced cooldown t rest
  end.

(** All alerts of a session, in order. *)
Definition session_alerts (outs : list (bool * list AlertEvent))
  : list AlertEvent :=
  concat (map snd outs).

(* ------------------------------------------------------------------ *)
(** ** Fixtures of the test suite *)

(** [create_mock_face_landmarks]: the seven left-eye landmarks at
    [(0.3, 0.3)], the seven right-eye landmarks at [(0.7, 0.3)], all at
    depth [eye_z_depth]; no other index is present. *)
Definition create_mock_face_landmarks (eye_z_depth : R) : LandmarkSet :=
  {| landmark := fun idx =>
       if existsb (Nat.eqb idx) left_eye_indices
       then Some (Landmark.mk 0.3 0.3 eye_z_depth)
       else if existsb (Nat.eqb idx) right_eye_indices
       then Some (Landmark.mk 0.7 0.3 eye_z_depth)
       else None |}.

(** [create_mock_hand_landmarks]: only the index fingertip is present. *)
Definition create_mock_hand_landmarks (x y z : R) : LandmarkSet :=
  {| landmark := fun idx =>
       if Nat.eqb idx INDEX_FINGER_TIP then Some (Landmark.mk x y z)
       else None |}.

(** A face whose seven left-eye landmarks all sit at [l] and whose seven
    right-eye landmarks all sit at [r]. *)
Definition eyes_at (face : LandmarkSet) (l r : Landmark.t) : Prop :=
  (forall idx, In idx left_eye_indices -> landmark face idx = Some l)
  /\ (forall idx, In idx right_eye_indices -> landmark face idx = Some r).

(** The fingertip path of the end-to-end scenario, one hand landmark set
    per frame. *)
Definition scenario_hands : list (option LandmarkSet) :=
  [ Some (create_mock_hand_landmarks 0.3 0.3 (-0.02));
    Some (create_mock_hand_landmarks 0.34 0.32 (-0.01));
    Some (create_mock_hand_landmarks 0.28 0.28 0.0) ].

(** The same path in pixels of a 640x480 frame. *)
Definition scenario_pixels : list Point :=
  [ (0.3 * 640, 0.3 * 480); (0.34 * 640, 0.32 * 480);
    (0.28 * 640, 0.28 * 480) ].

(** What [detect_eye_rubbing] never touches. *)
Definition same_alert_state (a b : BabyMonitor) : Prop :=
  config b = config a
  /\ last_alert_time b = last_alert_time a
  /\ consecutive_detections b = consecutive_detections a
  /\ alert_cooldown b = alert_cooldown a.

(** A monitor two rubbing frames into an episode, its fingertip last seen
    at the left eye of the fixture face. *)
Definition monitor_mid_episode : BabyMonitor :=
  set_consecutive_detections
    (set_hand_position_history (init get_default_config false)
                               [(0.3 * 640, 0.3 * 480)]) 2.

(** A landmark set with one more index filled in. *)
Definition with_landmark (ls : LandmarkSet) (idx : nat) (lm : Landmark.t)
  : LandmarkSet :=
  {| landmark := fun i => if Nat.eqb i idx then Some lm else landmark ls i |}.

(** The default configuration with a motion window of two frames. *)
Definition short_window_config : Config :=
  {| detection :=
       {| eye_rub_threshold := 0.15;
          depth_threshold := Some 0.05;
          min_detection_confidence := 0.5;
          min_tracking_confidence := 0.5;
          consecutive_frames_threshold := 3;
          motion_threshold := Some 0.01;
          motion_history_frames := Some 2%Z |};
     alert := alert get_default_config |}.

(** The last [count] entries of [history], or all of it when it is
    shorter, are [pos]. *)
Definition settled (history : list Point) (pos : Point) (count : nat) : Prop :=
  exists older recent,
    history = older ++ recent
    /\ Forall (eq pos) recent
    /\ (older = [] \/ (count <= length recent)%nat).




(** The frame on which [monitor_mid_episode] sees its third rubbing
    sample, at clock reading 1000. *)
Definition alerting_frame : Frame :=
  {| frame_faces := Some [create_mock_face_landmarks 0.0];
     frame_hands := Some [create_mock_hand_landmarks 0.34 0.32 (-0.01)];
     frame_width := 640;
     frame_height := 480;
     frame_clock := 1000 |}.

(** The counter update of [process_frame], on its own. *)
Definition count_frame (counter : Z) (is_rubbing : bool) : Z :=
  if is_rubbing then (counter + 1)%Z else 0%Z.

(** The default configuration alerting on the first rubbing frame, and a
    monitor built from it that has seen the fingertip at the left eye of
    the fixture face. *)
Definition eager_config : Config :=
  {| detection :=
       {| eye_rub_threshold := 0.15;
          depth_threshold := Some 0.05;
          min_detection_confidence := 0.5;
          min_tracking_confidence := 0.5;
          consecutive_frames_threshold := 1;
          motion_threshold := Some 0.01;
          motion_history_frames := Some 5%Z |};
     alert := alert get_default_config |}.

Definition monitor_eager : BabyMonitor :=
  set_hand_position_history (init eager_config false)
                            [(0.3 * 640, 0.3 * 480)].

(** The default configuration with the depth and motion thresholds that
    [test_threshold_adjustments] expects: 0.08 and 0.004. *)
Definition looser_config : Config :=
  {| detection :=
       {| eye_rub_threshold := 0.15;
          depth_threshold := Some 0.08;
          min_detection_confidence := 0.5;
          min_tracking_confidence := 0.5;
          consecutive_frames_threshold := 2;
          motion_threshold := Some 0.004;
          motion_history_frames := Some 5%Z |};
     alert := alert get_default_config |}.

(* ================================================================== *)
(** * Facts *)

(** ** Comparisons *)

Lemma ltb_lt a b : Cmp.ltb a b = true <-> a < b.
Proof.
  unfold Cmp.ltb; destruct (Rlt_dec a b); split; intros; auto; discriminate.
Qed.

Lemma ltb_ge a b : Cmp.ltb a b = false <-> b <= a.
Proof.
  unfold Cmp.ltb; destruct (Rlt_dec a b); split; intros; auto;
    try discriminate; lra.
Qed.

Lemma leb_le a b : Cmp.leb a b = true <-> a <= b.
Proof.
  unfold Cmp.leb; destruct (Rle_dec a b); split; intros; auto; discriminate.
Qed.

Lemma leb_gt a b : Cmp.leb a b = false <-> b < a.
Proof.
  unfold Cmp.leb; destruct (Rle_dec a b); split; intros; auto;
    try discriminate; lra.
Qed.

Lemma geb_ge a b : Cmp.geb a b = true <-> b <= a.
Proof. unfold Cmp.geb; apply leb_le. Qed.

Lemma geb_lt a b : Cmp.geb a b = false <-> a < b.
Proof. unfold Cmp.geb; apply leb_gt. Qed.

(** ** Square roots against rational bounds *)

Lemma sqrt_ge_bound a b : 0 <= a -> a * a <= b -> a <= sqrt b.
Proof.
  intros Ha Hab.
  rewrite <- (sqrt_square a Ha).
  now apply sqrt_le_1_alt.
Qed.

Lemma sqrt_le_bound a b : 0 <= a -> b <= a * a -> sqrt b <= a.
Proof.
  intros Ha Hab.
  rewrite <- (sqrt_square a Ha).
  now apply sqrt_le_1_alt.
Qed.

Lemma calculate_distance_self p : calculate_distance p p = 0.
Proof.
  unfold calculate_distance.
  replace ((fst p - fst p) ^ 2 + (snd p - snd p) ^ 2) with 0 by ring.
  apply sqrt_0.
Qed.

(** ** The history buffer *)

Lemma history_after_motion self pos :
  hand_position_history (fst (calculate_hand_motion self pos))
  = push_history (max_history_frames self) (hand_position_history self) pos.
Proof.
  unfold calculate_hand_motion.
  destruct (length _ <? 2)%nat; reflexivity.
Qed.

Lemma motion_keeps_fields self pos :
  let self' := fst (calculate_hand_motion self pos) in
  config self' = config self
  /\ last_alert_time self' = last_alert_time self
  /\ consecutive_detections self' = consecutive_detections self
  /\ alert_cooldown self' = alert_cooldown self
  /\ max_history_frames self' = max_history_frames self
  /\ self_sound_enabled self' = self_sound_enabled self.
Proof.
  unfold calculate_hand_motion.
  destruct (length _ <? 2)%nat; cbn; repeat split.
Qed.

Lemma motion_state self pos :
  fst (calculate_hand_motion self pos)
  = set_hand_position_history self
      (push_history (max_history_frames self) (hand_position_history self) pos).
Proof.
  unfold calculate_hand_motion.
  destruct (length _ <? 2)%nat; reflexivity.
Qed.

Lemma push_history_under max_frames h p :
  (Z.of_nat (length h) < max_frames)%Z ->
  push_history max_frames h p = h ++ [p].
Proof.
  intros H. unfold push_history.
  rewrite length_app; cbn [length].
  destruct (Z.gtb_spec (Z.of_nat (length h + 1)) max_frames); [lia | reflexivity].
Qed.

Lemma push_history_over max_frames h p :
  (max_frames <= Z.of_nat (length h))%Z ->
  push_history max_frames h p = tl (h ++ [p]).
Proof.
  intros H. unfold push_history, pop0.
  rewrite length_app; cbn [length].
  destruct (Z.gtb_spec (Z.of_nat (length h + 1)) max_frames); [reflexivity | lia].
Qed.

Lemma push_history_nonempty max_frames h p :
  (1 <= max_frames)%Z -> push_history max_frames h p <> [].
Proof.
  intros Hmax.
  destruct (Z_lt_le_dec (Z.of_nat (length h)) max_frames) as [Hlt | Hge].
  - rewrite push_history_under by assumption. destruct h; discriminate.
  - rewrite push_history_over by assumption.
    destruct h as [| a [| b t]]; cbn in *; try lia; discriminate.
Qed.

(** ** Unfolding [detect_eye_rubbing] on a well-formed frame *)

Lemma detect_present self face hand w h regions tip :
  get_eye_regions face w h = Some regions ->
  landmark hand INDEX_FINGER_TIP = Some tip ->
  let pos := to_pixels tip w h in
  let near := is_near_eye (config self) regions pos (Landmark.z tip) w in
  let moved := calculate_hand_motion self pos in
  detect_eye_rubbing self (Some face) (Some hand) w h
  = Some (if near then fst moved else set_hand_position_history (fst moved) [],
          near && Cmp.geb (snd moved / IZR w)
                    (get (motion_threshold (detection (config self))) 0.01)).
Proof.
  intros Hr Ht pos near moved.
  unfold detect_eye_rubbing. rewrite Hr; cbn [bind]. rewrite Ht; cbn [bind].
  fold pos. fold near. fold moved.
  destruct (motion_keeps_fields self pos) as [Hc _]. fold moved in Hc.
  destruct moved as [s v]; cbn [fst snd] in *. rewrite Hc.
  destruct near; reflexivity.
Qed.

(** ** Eye regions of concrete faces *)

Lemma np_mean_seven a : np_mean [a; a; a; a; a; a; a] = a.
Proof. unfold np_mean, np_sum; cbn [fold_right length INR]. field. Qed.

Lemma get_eye_regions_eyes_at face l r w h :
  eyes_at face l r ->
  get_eye_regions face w h
  = Some (to_pixels l w h, to_pixels r w h, Landmark.z l, Landmark.z r).
Proof.
  intros [Hl Hr]. unfold get_eye_regions, left_eye_indices, right_eye_indices in *.
  cbn [mapM].
  repeat (rewrite Hl by (cbn [In]; tauto); cbn [bind ret]).
  repeat (rewrite Hr by (cbn [In]; tauto); cbn [bind ret]).
  unfold np_mean_axis0; cbn [map fst snd].
  rewrite !np_mean_seven. reflexivity.
Qed.

Lemma mock_face_eyes_at d :
  eyes_at (create_mock_face_landmarks d)
          (Landmark.mk 0.3 0.3 d) (Landmark.mk 0.7 0.3 d).
Proof.
  split; intros idx Hin; cbn [In left_eye_indices right_eye_indices] in Hin;
    repeat (destruct Hin as [<- | Hin]; [reflexivity |]); contradiction.
Qed.

(* ================================================================== *)
(** * The per-frame decision and the motion history *)

(** C5.  When the face landmark set or the hand landmark set is absent,
    [detect_eye_rubbing] returns [False] and leaves the motion history
    empty, whatever it held before; nothing else of the monitor changes. *)
Theorem detect_absent_resets_history self face hand w h :
  face = None \/ hand = None ->
  exists self',
    detect_eye_rubbing self face hand w h = Some (self', false)
    /\ hand_position_history self' = []
    /\ length (hand_position_history self') = 0%nat
    /\ self' = set_hand_position_history self [].
Proof.
  intros Habsent.
  exists (set_hand_position_history self []).
  assert (Hcall : detect_eye_rubbing self face hand w h
                  = Some (set_hand_position_history self [], false)).
  { destruct Habsent as [-> | ->]; [| destruct face]; reflexivity. }
  rewrite Hcall. repeat split.
Qed.

Lemma detect_absent_resets_history_witness :
  exists self',
    detect_eye_rubbing
      (set_hand_position_history (init get_default_config false)
                                 [(1, 2); (3, 4)])
      (Some (create_mock_face_landmarks 0)) None 640 480
    = Some (self', false)
    /\ hand_position_history self' = []
    /\ length (hand_position_history self') = 0%nat
    /\ self' = set_hand_position_history
                 (set_hand_position_history (init get_default_config false)
                                            [(1, 2); (3, 4)]) [].
Proof.
  apply (detect_absent_resets_history
           (set_hand_position_history (init get_default_config false)
                                      [(1, 2); (3, 4)])
           (Some (create_mock_face_landmarks 0)) None 640 480).
  right; reflexivity.
Defined.

(** [process_frame] calls [detect_eye_rubbing] only inside its loop over
    the detected hands: on a frame without hands the call is not made, the
    frame counts as not rubbing, and the motion history stays as it was. *)
Lemma process_frame_without_hands self faces w h now self' r events :
  process_frame self faces None w h now = Some (self', r, events) ->
  r = false /\ events = []
  /\ hand_position_history self' = hand_position_history self
  /\ consecutive_detections self' = 0%Z.
Proof.
  unfold process_frame, frame_signal. cbn [truthy].
  destruct (mapM _ (truthy faces)); [| discriminate]. cbn [bind].
  destruct (truthy faces); cbn [check_hands bind ret handle_detection];
    intros [= <- <- <-]; repeat split.
Qed.

(** C6.  With face and hand present, a fingertip that is near neither eye
    makes [detect_eye_rubbing] return [False] and leaves the motion history
    empty after the call, although the position was appended while the
    velocity was computed. *)
Theorem detect_not_near_resets_history self face hand w h regions tip :
  get_eye_regions face w h = Some regions ->
  landmark hand INDEX_FINGER_TIP = Some tip ->
  is_near_eye (config self) regions (to_pixels tip w h) (Landmark.z tip) w
  = false ->
  exists self',
    detect_eye_rubbing self (Some face) (Some hand) w h = Some (self', false)
    /\ hand_position_history self' = []
    /\ self' = set_hand_position_history
                 (fst (calculate_hand_motion self (to_pixels tip w h))) []
    /\ self' = set_hand_position_history self [].
Proof.
  intros Hregions Htip Hfar.
  rewrite (detect_present self face hand w h regions tip Hregions Htip).
  rewrite Hfar; cbn [andb].
  eexists; repeat split.
  rewrite motion_state; reflexivity.
Qed.

Lemma far_fingertip_not_near :
  is_near_eye (config (init get_default_config false))
    (to_pixels (Landmark.mk 0.3 0.3 0) 640 480,
     to_pixels (Landmark.mk 0.7 0.3 0) 640 480, 0, 0)
    (to_pixels (Landmark.mk 0.8 0.8 0) 640 480) 0 640 = false.
Proof.
  unfold is_near_eye, eye_close, to_pixels, calculate_distance.
  cbn [config init get_default_config detection eye_rub_threshold
       depth_threshold get Landmark.x Landmark.y fst snd].
  apply orb_false_iff; split; apply andb_false_iff; left; apply ltb_ge.
  - assert (96 <= sqrt ((0.8 * 640 - 0.3 * 640) ^ 2
                        + (0.8 * 480 - 0.3 * 480) ^ 2))
      by (apply sqrt_ge_bound; lra).
    lra.
  - assert (96 <= sqrt ((0.8 * 640 - 0.7 * 640) ^ 2
                        + (0.8 * 480 - 0.3 * 480) ^ 2))
      by (apply sqrt_ge_bound; lra).
    lra.
Qed.

Lemma detect_not_near_resets_history_witness :
  exists self',
    detect_eye_rubbing
      (set_hand_position_history (init get_default_config false) [(192, 144)])
      (Some (create_mock_face_landmarks 0))
      (Some (create_mock_hand_landmarks 0.8 0.8 0)) 640 480
    = Some (self', false)
    /\ hand_position_history self' = []
    /\ self' = set_hand_position_history
                 (fst (calculate_hand_motion
                         (set_hand_position_history
                            (init get_default_config false) [(192, 144)])
                         (to_pixels (Landmark.mk 0.8 0.8 0) 640 480))) []
    /\ self' = set_hand_position_history
                 (set_hand_position_history (init get_default_config false)
                                            [(192, 144)]) [].
Proof.
  apply (detect_not_near_resets_history
           (set_hand_position_history (init get_default_config false)
                                      [(192, 144)])
           (create_mock_face_landmarks 0)
           (create_mock_hand_landmarks 0.8 0.8 0) 640 480
           (to_pixels (Landmark.mk 0.3 0.3 0) 640 480,
            to_pixels (Landmark.mk 0.7 0.3 0) 640 480, 0, 0)
           (Landmark.mk 0.8 0.8 0)).
  - apply (get_eye_regions_eyes_at _ _ _ 640 480 (mock_face_eyes_at 0)).
  - reflexivity.
  - exact far_fingertip_not_near.
Defined.

(** C9.  With face and hand present, the fingertip near an eye and the
    normalized velocity below [motion_threshold], [detect_eye_rubbing]
    returns [False] and keeps the motion history: the earlier entries with
    the new position appended, the oldest entry dropped when the buffer was
    full.  With a capacity of at least one the history is then not empty. *)
Theorem detect_slow_near_keeps_history self face hand w h regions tip :
  get_eye_regions face w h = Some regions ->
  landmark hand INDEX_FINGER_TIP = Some tip ->
  is_near_eye (config self) regions (to_pixels tip w h) (Landmark.z tip) w
  = true ->
  snd (calculate_hand_motion self (to_pixels tip w h)) / IZR w
  < get (motion_threshold (detection (config self))) 0.01 ->
  exists self',
    detect_eye_rubbing self (Some face) (Some hand) w h = Some (self', false)
    /\ hand_position_history self'
       = push_history (max_history_frames self) (hand_position_history self)
                      (to_pixels tip w h)
    /\ ((Z.of_nat (length (hand_position_history self))
           < max_history_frames self)%Z ->
        hand_position_history self'
        = hand_position_history self ++ [to_pixels tip w h])
    /\ ((max_history_frames self
           <= Z.of_nat (length (hand_position_history self)))%Z ->
        hand_position_history self'
        = tl (hand_position_history self ++ [to_pixels tip w h]))
    /\ ((1 <= max_history_frames self)%Z -> hand_position_history self' <> []).
Proof.
  intros Hregions Htip Hnear Hslow.
  rewrite (detect_present self face hand w h regions tip Hregions Htip).
  rewrite Hnear; cbn [andb].
  apply geb_lt in Hslow. rewrite Hslow.
  eexists; split; [reflexivity |].
  rewrite history_after_motion.
  split; [reflexivity |].
  split; [apply push_history_under |].
  split; [apply push_history_over | apply push_history_nonempty].
Qed.

Lemma resting_fingertip_near :
  is_near_eye (config (init get_default_config false))
    (to_pixels (Landmark.mk 0.3 0.3 0) 640 480,
     to_pixels (Landmark.mk 0.7 0.3 0) 640 480, 0, 0)
    (to_pixels (Landmark.mk 0.3 0.3 0) 640 480) 0 640 = true.
Proof.
  unfold is_near_eye, eye_close.
  apply orb_true_iff; left; apply andb_true_iff; split.
  - apply ltb_lt. rewrite calculate_distance_self.
    cbn [config init get_default_config detection eye_rub_threshold]. lra.
  - apply leb_le. replace (0 - 0) with 0 by ring. rewrite Rabs_R0.
    cbn [config init get_default_config detection depth_threshold get]. lra.
Qed.

Lemma detect_slow_near_keeps_history_witness :
  exists self',
    detect_eye_rubbing (init get_default_config false)
      (Some (create_mock_face_landmarks 0))
      (Some (create_mock_hand_landmarks 0.3 0.3 0)) 640 480
    = Some (self', false)
    /\ hand_position_history self'
       = push_history (max_history_frames (init get_default_config false))
           (hand_position_history (init get_default_config false))
           (to_pixels (Landmark.mk 0.3 0.3 0) 640 480)
    /\ ((Z.of_nat (length (hand_position_history
                             (init get_default_config false)))
           < max_history_frames (init get_default_config false))%Z ->
        hand_position_history self'
        = hand_position_history (init get_default_config false)
          ++ [to_pixels (Landmark.mk 0.3 0.3 0) 640 480])
    /\ ((max_history_frames (init get_default_config false)
           <= Z.of_nat (length (hand_position_history
                                  (init get_default_config false))))%Z ->
        hand_position_history self'
        = tl (hand_position_history (init get_default_config false)
              ++ [to_pixels (Landmark.mk 0.3 0.3 0) 640 480]))
    /\ ((1 <= max_history_frames (init get_default_config false))%Z ->
        hand_position_history self' <> []).
Proof.
  apply (detect_slow_near_keeps_history
           (init get_default_config false)
           (create_mock_face_landmarks 0)
           (create_mock_hand_landmarks 0.3 0.3 0) 640 480
           (to_pixels (Landmark.mk 0.3 0.3 0) 640 480,
            to_pixels (Landmark.mk 0.7 0.3 0) 640 480, 0, 0)
           (Landmark.mk 0.3 0.3 0)).
  - apply (get_eye_regions_eyes_at _ _ _ 640 480 (mock_face_eyes_at 0)).
  - reflexivity.
  - exact resting_fingertip_near.
  - cbn [calculate_hand_motion init get_default_config max_history_frames
         hand_position_history motion_history_frames detection get
         push_history app length Z.of_nat Pos.of_succ_nat Z.gtb Z.compare
         Pos.compare Pos.compare_cont Nat.ltb Nat.leb snd config
         set_hand_position_history motion_threshold].
    lra.
Defined.

(** The history is emptied only by an absent face or hand or by a
    fingertip away from both eyes: with a capacity of at least one, a
    call on a present, near fingertip never leaves it empty, whatever the
    velocity and whatever the call returns. *)
Lemma detect_near_never_empties self face hand w h regions tip self' r :
  (1 <= max_history_frames self)%Z ->
  get_eye_regions face w h = Some regions ->
  landmark hand INDEX_FINGER_TIP = Some tip ->
  detect_eye_rubbing self (Some face) (Some hand) w h = Some (self', r) ->
  (hand_position_history self' = []
   <-> is_near_eye (config self) regions (to_pixels tip w h)
                   (Landmark.z tip) w = false).
Proof.
  intros Hmax Hregions Htip.
  rewrite (detect_present self face hand w h regions tip Hregions Htip).
  destruct (is_near_eye _ _ _ _ _) eqn:Hnear; intros [= <- <-].
  - rewrite history_after_motion. split; [| discriminate].
    intros Hempty. now apply push_history_nonempty in Hempty.
  - split; reflexivity.
Qed.

(* ================================================================== *)
(** * The alert state machine *)

Lemma trigger_alert_fires self now :
  alert_cooldown self <= now - last_alert_time self ->
  trigger_alert self now
  = (set_last_alert_time self now,
     [ {| alert_time := now; alert_sound := self_sound_enabled self |} ]).
Proof.
  intros H. unfold trigger_alert.
  apply ltb_ge in H. rewrite H. reflexivity.
Qed.

Lemma trigger_alert_quiet self now :
  now - last_alert_time self < alert_cooldown self ->
  trigger_alert self now = (self, []).
Proof.
  intros H. unfold trigger_alert.
  apply ltb_lt in H. rewrite H. reflexivity.
Qed.

Lemma trigger_alert_keeps_counter self now :
  consecutive_detections (fst (trigger_alert self now))
  = consecutive_detections self.
Proof.
  unfold trigger_alert. destruct (Cmp.ltb _ _); reflexivity.
Qed.

(** Attempts that all fall inside the cooldown window of the last alert
    change nothing and emit nothing. *)
Lemma attempts_quiet self times :
  Forall (fun t => t - last_alert_time self < alert_cooldown self) times ->
  attempts self times = (self, []).
Proof.
  induction 1 as [| t rest Ht _ IH]; cbn [attempts]; [reflexivity |].
  rewrite (trigger_alert_quiet self t Ht), IH. reflexivity.
Qed.

Lemma attempts_app self ts1 ts2 :
  attempts self (ts1 ++ ts2)
  = (fst (attempts (fst (attempts self ts1)) ts2),
     snd (attempts self ts1) ++ snd (attempts (fst (attempts self ts1)) ts2)).
Proof.
  revert self; induction ts1 as [| t ts1 IH]; intros self; cbn [app attempts].
  - cbn [fst snd app]. destruct (attempts self ts2); reflexivity.
  - destruct (trigger_alert self t) as [s1 ev].
    rewrite IH.
    destruct (attempts s1 ts1) as [s2 ev1]; cbn [fst snd].
    destruct (attempts s2 ts2) as [s3 ev2]; cbn [fst snd].
    now rewrite app_assoc.
Qed.

(** An episode: one attempt that fires at [t], then attempts inside its
    cooldown window.  Exactly the first one alerts. *)
Lemma attempts_episode self t rest :
  alert_cooldown self <= t - last_alert_time self ->
  Forall (fun u => u - t < alert_cooldown self) rest ->
  attempts self (t :: rest)
  = (set_last_alert_time self t,
     [ {| alert_time := t; alert_sound := self_sound_enabled self |} ]).
Proof.
  intros Hfire Hrest. cbn [attempts].
  rewrite (trigger_alert_fires self t Hfire).
  rewrite attempts_quiet by exact Hrest. reflexivity.
Qed.

(** C10.  An alert attempt made while
    [current_time - last_alert_time < alert_cooldown] emits nothing and
    leaves the monitor, [last_alert_time] included, as it was; any later
    attempt therefore behaves as if the suppressed one had not been made,
    the window being counted from the last alert that fired. *)
Theorem suppressed_attempt_has_no_effect self now :
  now - last_alert_time self < alert_cooldown self ->
  snd (trigger_alert self now) = []
  /\ fst (trigger_alert self now) = self
  /\ last_alert_time (fst (trigger_alert self now)) = last_alert_time self
  /\ (forall later,
        trigger_alert (fst (trigger_alert self now)) later
        = trigger_alert self later)
  /\ (forall later,
        snd (attempts self [now; later]) <> []
        <-> alert_cooldown self <= later - last_alert_time self).
Proof.
  intros Hquiet.
  pose proof (trigger_alert_quiet self now Hquiet) as Hcall.
  rewrite Hcall; cbn [fst snd].
  repeat split; try reflexivity.
  - cbn [attempts]. rewrite Hcall.
    intros Hfired. apply ltb_ge. unfold trigger_alert in Hfired.
    destruct (Cmp.ltb _ _); [now cbn in Hfired | reflexivity].
  - intros Hlate. cbn [attempts]. rewrite Hcall.
    rewrite (trigger_alert_fires self later Hlate). discriminate.
Qed.

Lemma suppressed_attempt_has_no_effect_witness :
  snd (trigger_alert (set_last_alert_time (init get_default_config false) 100)
                     103) = []
  /\ fst (trigger_alert
            (set_last_alert_time (init get_default_config false) 100) 103)
     = set_last_alert_time (init get_default_config false) 100
  /\ last_alert_time
       (fst (trigger_alert
               (set_last_alert_time (init get_default_config false) 100) 103))
     = last_alert_time (set_last_alert_time (init get_default_config false) 100)
  /\ (forall later,
        trigger_alert
          (fst (trigger_alert
                  (set_last_alert_time (init get_default_config false) 100)
                  103)) later
        = trigger_alert
            (set_last_alert_time (init get_default_config false) 100) later)
  /\ (forall later,
        snd (attempts (set_last_alert_time (init get_default_config false) 100)
                      [103; later]) <> []
        <-> alert_cooldown
              (set_last_alert_time (init get_default_config false) 100)
            <= later
               - last_alert_time
                   (set_last_alert_time (init get_default_config false) 100)).
Proof.
  apply (suppressed_attempt_has_no_effect
           (set_last_alert_time (init get_default_config false) 100) 103).
  cbn [init set_last_alert_time last_alert_time alert_cooldown
       get_default_config alert alert_cooldown_seconds].
  lra.
Defined.

(** C7.  An alert attempt fires exactly when
    [alert_cooldown <= current_time - last_alert_time]; a monitor that has
    never alerted has [last_alert_time = 0], so its first attempt fires as
    soon as the clock reading is at least the cooldown.  Firing emits one
    event and sets [last_alert_time] to the clock reading.  Hence two
    episodes of attempts that all fall within the cooldown of the first
    alert give exactly one alert, and two episodes whose first attempts are
    at least the cooldown apart give exactly two. *)
Theorem alerts_respect_cooldown self t1 rest1 t2 rest2 :
  alert_cooldown self <= t1 - last_alert_time self ->
  Forall (fun u => u - t1 < alert_cooldown self) rest1 ->
  (forall s now,
      (snd (trigger_alert s now) <> []
       <-> alert_cooldown s <= now - last_alert_time s)
      /\ (snd (trigger_alert s now) <> [] ->
          last_alert_time (fst (trigger_alert s now)) = now
          /\ length (snd (trigger_alert s now)) = 1%nat)
      /\ (snd (trigger_alert s now) = [] -> fst (trigger_alert s now) = s))
  /\ (forall cfg mixer_ok now,
        alert_cooldown_seconds (alert cfg) <= now ->
        length (snd (trigger_alert (init cfg mixer_ok) now)) = 1%nat)
  /\ (Forall (fun u => u - t1 < alert_cooldown self) (t2 :: rest2) ->
      snd (attempts self (t1 :: rest1 ++ t2 :: rest2))
      = [ {| alert_time := t1; alert_sound := self_sound_enabled self |} ])
  /\ (alert_cooldown self <= t2 - t1 ->
      Forall (fun u => u - t2 < alert_cooldown self) rest2 ->
      snd (attempts self (t1 :: rest1 ++ t2 :: rest2))
      = [ {| alert_time := t1; alert_sound := self_sound_enabled self |};
          {| alert_time := t2; alert_sound := self_sound_enabled self |} ]).
Proof.
  intros Hfire1 Hrest1.
  split; [| split; [| split]].
  - intros s now. unfold trigger_alert.
    destruct (Cmp.ltb (now - last_alert_time s) (alert_cooldown s)) eqn:Hcmp;
      cbn [fst snd set_last_alert_time last_alert_time length].
    + apply ltb_lt in Hcmp. repeat split; try congruence; intros; lra.
    + apply ltb_ge in Hcmp. repeat split; try discriminate; auto.
  - intros cfg mixer_ok now Hnow.
    rewrite trigger_alert_fires; [reflexivity |].
    cbn [init alert_cooldown last_alert_time]. lra.
  - intros Hall.
    change (t1 :: rest1 ++ t2 :: rest2) with ((t1 :: rest1) ++ t2 :: rest2).
    rewrite attempts_app, (attempts_episode self t1 rest1 Hfire1 Hrest1).
    cbn [fst snd]. rewrite attempts_quiet; [reflexivity |].
    exact Hall.
  - intros Hfire2 Hrest2.
    change (t1 :: rest1 ++ t2 :: rest2) with ((t1 :: rest1) ++ t2 :: rest2).
    rewrite attempts_app, (attempts_episode self t1 rest1 Hfire1 Hrest1).
    cbn [fst snd]. rewrite attempts_episode; [reflexivity | exact Hfire2 |].
    exact Hrest2.
Qed.

Lemma alerts_respect_cooldown_witness :
  (forall s now,
      (snd (trigger_alert s now) <> []
       <-> alert_cooldown s <= now - last_alert_time s)
      /\ (snd (trigger_alert s now) <> [] ->
          last_alert_time (fst (trigger_alert s now)) = now
          /\ length (snd (trigger_alert s now)) = 1%nat)
      /\ (snd (trigger_alert s now) = [] -> fst (trigger_alert s now) = s))
  /\ (forall cfg mixer_ok now,
        alert_cooldown_seconds (alert cfg) <= now ->
        length (snd (trigger_alert (init cfg mixer_ok) now)) = 1%nat)
  /\ (Forall (fun u => u - 1000
                     < alert_cooldown (init get_default_config false))
             [1010; 1011] ->
      snd (attempts (init get_default_config false)
                    (1000 :: [1001; 1002] ++ [1010; 1011]))
      = [ {| alert_time := 1000;
             alert_sound := self_sound_enabled (init get_default_config false)
          |} ])
  /\ (alert_cooldown (init get_default_config false) <= 1010 - 1000 ->
      Forall (fun u => u - 1010
                     < alert_cooldown (init get_default_config false))
             [1011] ->
      snd (attempts (init get_default_config false)
                    (1000 :: [1001; 1002] ++ [1010; 1011]))
      = [ {| alert_time := 1000;
             alert_sound := self_sound_enabled (init get_default_config false)
          |};
          {| alert_time := 1010;
             alert_sound := self_sound_enabled (init get_default_config false)
          |} ]).
Proof.
  apply (alerts_respect_cooldown (init get_default_config false)
           1000 [1001; 1002] 1010 [1011]).
  - cbn [init last_alert_time alert_cooldown get_default_config alert
         alert_cooldown_seconds]. lra.
  - repeat constructor;
      cbn [init alert_cooldown get_default_config alert alert_cooldown_seconds];
      lra.
Defined.

(* ================================================================== *)
(** * The motion tracker *)

(** The index loop of [calculate_hand_motion] visits exactly the pairs of
    neighbours. *)
Lemma motions_of_cons p q rest :
  motions_of (p :: q :: rest)
  = calculate_distance p q :: motions_of (q :: rest).
Proof.
  unfold motions_of. cbn [length Nat.sub].
  rewrite Nat.sub_0_r. cbn [seq map nth Nat.sub]. f_equal.
  rewrite <- seq_shift, map_map.
  apply map_ext_in. intros i Hi. apply in_seq in Hi.
  destruct i as [| i]; [lia |].
  cbn [Nat.sub nth]. rewrite Nat.sub_0_r. reflexivity.
Qed.

Lemma motions_of_consecutive history :
  motions_of history = consecutive_distances history.
Proof.
  induction history as [| p [| q rest] IH]; try reflexivity.
  rewrite motions_of_cons, IH. reflexivity.
Qed.

Lemma consecutive_distances_length history :
  length (consecutive_distances history) = (length history - 1)%nat.
Proof.
  induction history as [| p [| q rest] IH]; try reflexivity.
  cbn [consecutive_distances length] in *. rewrite IH. lia.
Qed.

Lemma sqrt_3_4_5 : sqrt ((0 - 3) ^ 2 + (0 - 4) ^ 2) = 5.
Proof.
  replace ((0 - 3) ^ 2 + (0 - 4) ^ 2) with (5 * 5) by ring.
  apply sqrt_square; lra.
Qed.

(** C3.  [calculate_hand_motion] returns [0.0] when the history, after the
    position is appended and the buffer trimmed, holds fewer than two
    samples; otherwise it returns the sum of the distances between
    neighbouring entries of that history divided by their number.  This is
    not the distance from the first to the last entry: going from [(0,0)]
    to [(3,4)] and back gives velocity 5, the end points being equal. *)
Theorem hand_motion_is_mean_of_neighbour_distances self current_position :
  let history :=
    push_history (max_history_frames self) (hand_position_history self)
                 current_position in
  let velocity := snd (calculate_hand_motion self current_position) in
  hand_position_history (fst (calculate_hand_motion self current_position))
  = history
  /\ ((length history < 2)%nat -> velocity = 0)
  /\ ((2 <= length history)%nat ->
      velocity = np_mean (consecutive_distances history)
      /\ length (consecutive_distances history) = (length history - 1)%nat
      /\ velocity
         = np_sum (consecutive_distances history) / INR (length history - 1))
  /\ (snd (calculate_hand_motion
             (set_hand_position_history (init get_default_config false)
                                        [(0, 0); (3, 4)]) (0, 0)) = 5
      /\ calculate_distance (0, 0) (0, 0) = 0).
Proof.
  intros history velocity.
  split; [apply history_after_motion |].
  split; [| split].
  - intros Hshort. subst velocity. unfold calculate_hand_motion. fold history.
    apply Nat.ltb_lt in Hshort. rewrite Hshort. reflexivity.
  - intros Hlong.
    assert (Hv : velocity = np_mean (consecutive_distances history)).
    { subst velocity. unfold calculate_hand_motion. fold history.
      destruct (Nat.ltb_spec (length history) 2) as [Hlt | _]; [lia |].
      cbn [snd]. rewrite motions_of_consecutive.
      destruct history as [| p [| q rest]]; cbn [length] in Hlong; try lia.
      reflexivity. }
    split; [exact Hv |].
    split; [apply consecutive_distances_length |].
    rewrite Hv. unfold np_mean.
    now rewrite consecutive_distances_length.
  - split; [| apply calculate_distance_self].
    unfold calculate_hand_motion, push_history.
    cbn [init set_hand_position_history hand_position_history
         max_history_frames get_default_config detection
         motion_history_frames get app length Z.of_nat Pos.of_succ_nat
         Pos.succ Z.gtb Z.compare Pos.compare Pos.compare_cont
         Nat.ltb Nat.leb snd].
    rewrite motions_of_consecutive.
    cbn [consecutive_distances]. unfold np_mean, np_sum, calculate_distance.
    cbn [fold_right length INR fst snd].
    replace ((3 - 0) ^ 2 + (4 - 0) ^ 2) with ((0 - 3) ^ 2 + (0 - 4) ^ 2) by ring.
    rewrite sqrt_3_4_5. field.
Qed.

Lemma skipn_succ_tl {A} k (l : list A) : skipn (S k) l = tl (skipn k l).
Proof.
  revert l; induction k as [| k IH]; intros [| a l]; try reflexivity.
  change (skipn (S (S k)) (a :: l)) with (skipn (S k) l).
  change (skipn (S k) (a :: l)) with (skipn k l).
  apply IH.
Qed.

Lemma observe_all_snoc self positions p :
  observe_all self (positions ++ [p])
  = fst (calculate_hand_motion (observe_all self positions) p).
Proof. unfold observe_all. now rewrite fold_left_app. Qed.

Lemma observe_all_keeps_capacity self positions :
  max_history_frames (observe_all self positions) = max_history_frames self.
Proof.
  induction positions as [| p positions IH] using rev_ind; [reflexivity |].
  rewrite observe_all_snoc.
  destruct (motion_keeps_fields (observe_all self positions) p)
    as (_ & _ & _ & _ & Hmax & _).
  now rewrite Hmax.
Qed.

(** Pushing onto the last [m] of [n] observations gives the last [m] of
    [n + 1] observations. *)
Lemma push_history_window (m : nat) positions p :
  push_history (Z.of_nat m) (skipn (length positions - m) positions) p
  = skipn (length (positions ++ [p]) - m) (positions ++ [p]).
Proof.
  rewrite length_app; cbn [length].
  destruct (Nat.lt_ge_cases (length positions) m) as [Hlt | Hge].
  - replace (length positions - m)%nat with 0%nat by lia.
    replace (length positions + 1 - m)%nat with 0%nat by lia.
    cbn [skipn]. apply push_history_under. lia.
  - rewrite push_history_over by (rewrite length_skipn; lia).
    replace (length positions + 1 - m)%nat
      with (S (length positions - m)) by lia.
    rewrite skipn_succ_tl, skipn_app.
    replace (length positions - m - length positions)%nat with 0%nat by lia.
    reflexivity.
Qed.

Lemma observe_all_window self positions :
  (0 <= max_history_frames self)%Z ->
  hand_position_history self = [] ->
  hand_position_history (observe_all self positions)
  = skipn (length positions - Z.to_nat (max_history_frames self)) positions.
Proof.
  intros Hmax Hempty.
  induction positions as [| p positions IH] using rev_ind.
  - cbn. exact Hempty.
  - rewrite observe_all_snoc, history_after_motion, IH.
    rewrite observe_all_keeps_capacity.
    rewrite <- (Z2Nat.id (max_history_frames self) Hmax) at 1.
    apply push_history_window.
Qed.

(** C4.  After [k] successive calls of [calculate_hand_motion] on an empty
    history the history holds [min(k, max_history_frames)] positions, never
    more than [max_history_frames], and they are the most recent ones in
    order: what is dropped on overflow is the oldest entry. *)
Theorem history_length_is_min self positions :
  (0 <= max_history_frames self)%Z ->
  hand_position_history self = [] ->
  let history := hand_position_history (observe_all self positions) in
  length history
  = Nat.min (length positions) (Z.to_nat (max_history_frames self))
  /\ (Z.of_nat (length history) <= max_history_frames self)%Z
  /\ history
     = skipn (length positions - Z.to_nat (max_history_frames self)) positions
  /\ (forall p,
        (max_history_frames self <= Z.of_nat (length positions))%Z ->
        hand_position_history (observe_all self (positions ++ [p]))
        = tl (history ++ [p])).
Proof.
  intros Hmax Hempty history.
  assert (Hwin := observe_all_window self positions Hmax Hempty).
  fold history in Hwin.
  assert (Hlen : length history
                 = Nat.min (length positions)
                           (Z.to_nat (max_history_frames self))).
  { rewrite Hwin, length_skipn. lia. }
  split; [exact Hlen |].
  split; [lia |].
  split; [exact Hwin |].
  intros p Hfull.
  rewrite observe_all_snoc, history_after_motion, observe_all_keeps_capacity.
  fold history.
  apply push_history_over. lia.
Qed.

Lemma history_length_is_min_witness :
  length (hand_position_history
            (observe_all (init get_default_config false)
               [(0, 0); (1, 1); (2, 2); (3, 3); (4, 4); (5, 5); (6, 6)]))
  = 5%nat
  /\ hand_position_history
       (observe_all (init get_default_config false)
          [(0, 0); (1, 1); (2, 2); (3, 3); (4, 4); (5, 5); (6, 6)])
     = [(2, 2); (3, 3); (4, 4); (5, 5); (6, 6)].
Proof.
  assert (Hmax : (0 <= max_history_frames (init get_default_config false))%Z)
    by (cbn [init max_history_frames get_default_config detection
             motion_history_frames get]; lia).
  assert (Hempty : hand_position_history (init get_default_config false) = [])
    by reflexivity.
  destruct (history_length_is_min (init get_default_config false)
              [(0, 0); (1, 1); (2, 2); (3, 3); (4, 4); (5, 5); (6, 6)]
              Hmax Hempty) as (Hlen & _ & Hwindow & _).
  split; [exact Hlen | exact Hwindow].
Defined.

(* ================================================================== *)
(** * Proximity and depth *)

Lemma eye_close_iff index_pos index_depth eye_center eye_depth w thr dthr :
  eye_close index_pos index_depth eye_center eye_depth w thr dthr = true
  <-> calculate_distance index_pos eye_center / IZR w < thr
      /\ Rabs (index_depth - eye_depth) <= dthr.
Proof.
  unfold eye_close. rewrite andb_true_iff, ltb_lt, leb_le. reflexivity.
Qed.

(** C2.  The test applied to one eye holds exactly when the 2D distance
    between fingertip and eye centre, divided by the frame width, is
    strictly below [eye_rub_threshold] and the absolute depth difference is
    at most [depth_threshold]; [is_near_eye] is the disjunction of the
    left-eye and right-eye tests.  With the eye at depth 0.0 and a depth
    threshold of 0.05, a fingertip at depth 0.06 is near neither eye
    however close it is in 2D, and one at depth 0.049 that is close in 2D
    is near. *)
Theorem near_eye_needs_distance_and_depth
    cfg left_center right_center left_depth right_depth
    index_pos index_depth w :
  let threshold := eye_rub_threshold (detection cfg) in
  let depth_thr := get (depth_threshold (detection cfg)) 0.05 in
  let close center depth :=
    calculate_distance index_pos center / IZR w < threshold
    /\ Rabs (index_depth - depth) <= depth_thr in
  (forall center depth thr dthr,
      eye_close index_pos index_depth center depth w thr dthr = true
      <-> calculate_distance index_pos center / IZR w < thr
          /\ Rabs (index_depth - depth) <= dthr)
  /\ is_near_eye cfg (left_center, right_center, left_depth, right_depth)
                 index_pos index_depth w
     = eye_close index_pos index_depth left_center left_depth w
                 threshold depth_thr
       || eye_close index_pos index_depth right_center right_depth w
                    threshold depth_thr
  /\ (is_near_eye cfg (left_center, right_center, left_depth, right_depth)
                  index_pos index_depth w = true
      <-> close left_center left_depth \/ close right_center right_depth)
  /\ (forall center thr,
        calculate_distance index_pos center / IZR w < thr ->
        eye_close index_pos 0.06 center 0.0 w thr 0.05 = false
        /\ eye_close index_pos 0.049 center 0.0 w thr 0.05 = true)
  /\ (depth_thr = 0.05 ->
      is_near_eye cfg (left_center, right_center, 0.0, 0.0) index_pos 0.06 w
      = false
      /\ (calculate_distance index_pos left_center / IZR w < threshold ->
          is_near_eye cfg (left_center, right_center, 0.0, right_depth)
                      index_pos 0.049 w = true)).
Proof.
  intros threshold depth_thr close.
  split; [intros; apply eye_close_iff |].
  split; [reflexivity |].
  assert (Hfar : forall center thr,
             eye_close index_pos 0.06 center 0.0 w thr 0.05 = false).
  { intros center thr. unfold eye_close.
    apply andb_false_iff; right. apply leb_gt.
    replace (0.06 - 0.0) with 0.06 by lra.
    rewrite Rabs_pos_eq; lra. }
  assert (Hdepth : Rabs (0.049 - 0.0) <= 0.05).
  { replace (0.049 - 0.0) with 0.049 by lra. rewrite Rabs_pos_eq; lra. }
  split; [| split].
  - unfold is_near_eye. fold threshold depth_thr.
    rewrite orb_true_iff, !eye_close_iff. reflexivity.
  - intros center thr Hclose. split; [apply Hfar |].
    apply eye_close_iff. split; [exact Hclose | exact Hdepth].
  - intros Hdefault. unfold is_near_eye. fold threshold depth_thr.
    rewrite Hdefault. split.
    + rewrite !Hfar. reflexivity.
    + intros Hclose. apply orb_true_iff; left.
      apply eye_close_iff. split; [exact Hclose | exact Hdepth].
Qed.

(* ================================================================== *)
(** * The end-to-end scenario *)

Lemma mapM_present {A B} (f : A -> Exc B) xs :
  (forall a, In a xs -> f a <> None) -> exists bs, mapM f xs = Some bs.
Proof.
  induction xs as [| a xs IH]; intros Hall; cbn [mapM].
  - now exists [].
  - destruct (f a) as [b |] eqn:Hfa.
    + destruct IH as [bs Hbs]; [intros; apply Hall; now right |].
      rewrite Hbs. now exists (b :: bs).
    + exfalso. apply (Hall a); [now left | exact Hfa].
Qed.

(** A face whose seven left-eye landmarks sit at [l], the right-eye
    landmarks being present: the left eye region is [l] in pixels. *)
Lemma get_eye_regions_left face l w h :
  (forall idx, In idx left_eye_indices -> landmark face idx = Some l) ->
  (forall idx, In idx right_eye_indices -> landmark face idx <> None) ->
  exists right_center right_depth,
    get_eye_regions face w h
    = Some (to_pixels l w h, right_center, Landmark.z l, right_depth).
Proof.
  intros Hl Hr.
  destruct (mapM_present (landmark face) right_eye_indices Hr) as [rs Hrs].
  unfold get_eye_regions. rewrite Hrs.
  unfold left_eye_indices in *. cbn [mapM].
  repeat (rewrite Hl by (cbn [In]; tauto); cbn [bind ret]).
  unfold np_mean_axis0; cbn [map fst snd].
  rewrite !np_mean_seven. eauto.
Qed.

Lemma near_left_eye cfg lc rc ld rd pos depth w :
  calculate_distance pos lc / IZR w < eye_rub_threshold (detection cfg) ->
  Rabs (depth - ld) <= get (depth_threshold (detection cfg)) 0.05 ->
  is_near_eye cfg (lc, rc, ld, rd) pos depth w = true.
Proof.
  intros Hd Hz. unfold is_near_eye.
  apply orb_true_iff; left. now apply eye_close_iff.
Qed.

(** The first three calls of [calculate_hand_motion] on a buffer that
    holds at least three positions. *)
Lemma hand_motion_first self p :
  hand_position_history self = [] ->
  (1 <= max_history_frames self)%Z ->
  calculate_hand_motion self p = (set_hand_position_history self [p], 0).
Proof.
  intros Hh Hmax. unfold calculate_hand_motion.
  rewrite Hh, push_history_under by (cbn [length]; lia). reflexivity.
Qed.

Lemma hand_motion_second self p q :
  hand_position_history self = [p] ->
  (2 <= max_history_frames self)%Z ->
  calculate_hand_motion self q
  = (set_hand_position_history self [p; q], calculate_distance p q).
Proof.
  intros Hh Hmax. unfold calculate_hand_motion.
  rewrite Hh, push_history_under by (cbn [length]; lia).
  cbn [app length Nat.ltb Nat.leb]. rewrite motions_of_consecutive.
  cbn [consecutive_distances]. unfold np_mean, np_sum.
  cbn [fold_right length INR]. f_equal. field.
Qed.

Lemma hand_motion_third self p q r :
  hand_position_history self = [p; q] ->
  (3 <= max_history_frames self)%Z ->
  calculate_hand_motion self r
  = (set_hand_position_history self [p; q; r],
     (calculate_distance p q + calculate_distance q r) / 2).
Proof.
  intros Hh Hmax. unfold calculate_hand_motion.
  rewrite Hh, push_history_under by (cbn [length]; lia).
  cbn [app length Nat.ltb Nat.leb]. rewrite motions_of_consecutive.
  cbn [consecutive_distances]. unfold np_mean, np_sum.
  cbn [fold_right length INR]. f_equal. field.
Qed.

(** The displacements of the scenario, in pixels of a 640x480 frame. *)
Lemma scenario_step_12 :
  6.4 <= calculate_distance (0.3 * 640, 0.3 * 480) (0.34 * 640, 0.32 * 480)
  /\ calculate_distance (0.34 * 640, 0.32 * 480) (0.3 * 640, 0.3 * 480) <= 95.
Proof.
  unfold calculate_distance; cbn [fst snd]. split.
  - apply sqrt_ge_bound; lra.
  - apply sqrt_le_bound; lra.
Qed.

Lemma scenario_step_23 :
  6.4 <= calculate_distance (0.34 * 640, 0.32 * 480) (0.28 * 640, 0.28 * 480)
  /\ calculate_distance (0.28 * 640, 0.28 * 480) (0.3 * 640, 0.3 * 480) <= 95.
Proof.
  unfold calculate_distance; cbn [fst snd]. split.
  - apply sqrt_ge_bound; lra.
  - apply sqrt_le_bound; lra.
Qed.

Lemma small_depth_gap a e t : e - t <= a <= e + t -> Rabs (a - e) <= t.
Proof. intros H. apply Rabs_le. lra. Qed.

(** Reads the fields of a concrete monitor or configuration, leaving the
    arithmetic alone. *)
Ltac read_fields :=
  cbn [config init get_default_config detection alert eye_rub_threshold
       depth_threshold motion_threshold motion_history_frames
       consecutive_frames_threshold alert_cooldown_seconds get
       max_history_frames hand_position_history last_alert_time
       alert_cooldown consecutive_detections self_sound_enabled
       set_hand_position_history set_last_alert_time
       set_consecutive_detections fst snd] in *.

(** The scenario on any face whose left eye sits at [(0.3, 0.3)], depth
    0.0: the three calls and the monitor they leave. *)
Lemma scenario_run face mixer_ok :
  (forall idx, In idx left_eye_indices ->
               landmark face idx = Some (Landmark.mk 0.3 0.3 0.0)) ->
  (forall idx, In idx right_eye_indices -> landmark face idx <> None) ->
  detect_sequence (init get_default_config mixer_ok) (Some face)
                  scenario_hands 640 480
  = Some (set_hand_position_history (init get_default_config mixer_ok)
                                    scenario_pixels,
          [false; true; true]).
Proof.
  intros Hl Hr.
  destruct (get_eye_regions_left face _ 640 480 Hl Hr) as (rc & rd & Hreg).
  unfold to_pixels in Hreg; cbn [Landmark.x Landmark.y Landmark.z] in Hreg.
  destruct scenario_step_12 as [Hfast12 Hclose2].
  destruct scenario_step_23 as [Hfast23 Hclose3].
  unfold scenario_hands, scenario_pixels. cbn [detect_sequence].
  (* first frame: at the eye, nothing to compare with yet *)
  rewrite (detect_present _ face (create_mock_hand_landmarks 0.3 0.3 (-0.02))
             640 480 _ (Landmark.mk 0.3 0.3 (-0.02))
             Hreg eq_refl).
  unfold to_pixels; cbn [Landmark.x Landmark.y Landmark.z].
  rewrite near_left_eye;
    [ | rewrite calculate_distance_self; read_fields; lra
      | apply small_depth_gap; read_fields; lra ].
  rewrite hand_motion_first by (read_fields; first [reflexivity | lia]).
  cbn [fst snd bind andb].
  replace (Cmp.geb (0 / 640) _) with false
    by (symmetry; apply geb_lt; read_fields; lra).
  (* second frame: one displacement, already above the threshold *)
  rewrite (detect_present _ face (create_mock_hand_landmarks 0.34 0.32 (-0.01))
             640 480 _ (Landmark.mk 0.34 0.32 (-0.01))
             Hreg eq_refl).
  unfold to_pixels; cbn [Landmark.x Landmark.y Landmark.z].
  rewrite near_left_eye;
    [ | read_fields; lra | apply small_depth_gap; read_fields; lra ].
  rewrite (hand_motion_second _ (0.3 * 640, 0.3 * 480))
    by (read_fields; first [reflexivity | lia]).
  cbn [fst snd bind andb].
  replace (Cmp.geb (calculate_distance _ _ / 640) _) with true
    by (symmetry; apply geb_ge; read_fields; lra).
  (* third frame: the mean of two displacements *)
  rewrite (detect_present _ face (create_mock_hand_landmarks 0.28 0.28 0.0)
             640 480 _ (Landmark.mk 0.28 0.28 0.0)
             Hreg eq_refl).
  unfold to_pixels; cbn [Landmark.x Landmark.y Landmark.z].
  rewrite near_left_eye;
    [ | read_fields; lra | apply small_depth_gap; read_fields; lra ].
  rewrite (hand_motion_third _ (0.3 * 640, 0.3 * 480)
                             (0.34 * 640, 0.32 * 480))
    by (read_fields; first [reflexivity | lia]).
  cbn [fst snd bind andb].
  replace (Cmp.geb (_ / 640) _) with true
    by (symmetry; apply geb_ge; read_fields; lra).
  reflexivity.
Qed.

Lemma mock_face_left d idx :
  In idx left_eye_indices ->
  landmark (create_mock_face_landmarks d) idx = Some (Landmark.mk 0.3 0.3 d).
Proof. intros Hin. now apply (mock_face_eyes_at d). Qed.

Lemma mock_face_right d idx :
  In idx right_eye_indices ->
  landmark (create_mock_face_landmarks d) idx <> None.
Proof.
  intros Hin. rewrite (proj2 (mock_face_eyes_at d) idx Hin). discriminate.
Qed.

(** C1, as the code has it.  With the seven left-eye landmarks at
    [(0.3, 0.3)], depth 0.0, a 640x480 frame, the default configuration and
    an empty motion history, the fingertip path
    [(0.3, 0.3, -0.02)], [(0.34, 0.32, -0.01)], [(0.28, 0.28, 0.0)] makes
    three successive calls of [detect_eye_rubbing] return
    [False], [True], [True]: the second call already has two samples, and
    their distance over the frame width is above [motion_threshold].  The
    history then holds the three pixel positions. *)
Theorem scenario_detects_from_second_frame face mixer_ok :
  (forall idx, In idx left_eye_indices ->
               landmark face idx = Some (Landmark.mk 0.3 0.3 0.0)) ->
  (forall idx, In idx right_eye_indices -> landmark face idx <> None) ->
  exists self',
    detect_sequence (init get_default_config mixer_ok) (Some face)
                    scenario_hands 640 480
    = Some (self', [false; true; true])
    /\ hand_position_history self' = scenario_pixels
    /\ eye_rub_threshold (detection (config self')) = 0.15
    /\ get (depth_threshold (detection (config self'))) 0.05 = 0.05
    /\ get (motion_threshold (detection (config self'))) 0.01 = 0.01.
Proof.
  intros Hleft Hright.
  rewrite (scenario_run face mixer_ok Hleft Hright).
  eexists; split; [reflexivity |].
  repeat split.
Qed.

Lemma scenario_detects_from_second_frame_witness :
  exists self',
    detect_sequence (init get_default_config false)
                    (Some (create_mock_face_landmarks 0.0))
                    scenario_hands 640 480
    = Some (self', [false; true; true])
    /\ hand_position_history self' = scenario_pixels
    /\ eye_rub_threshold (detection (config self')) = 0.15
    /\ get (depth_threshold (detection (config self'))) 0.05 = 0.05
    /\ get (motion_threshold (detection (config self'))) 0.01 = 0.01.
Proof.
  apply (scenario_detects_from_second_frame
           (create_mock_face_landmarks 0.0) false).
  - exact (mock_face_left 0.0).
  - exact (mock_face_right 0.0).
Defined.

(** C1 as stated fails on the fixture face of the test suite: the three
    calls do not return [False], [False], [True]. *)
Lemma scenario_not_false_false_true :
  option_map snd
    (detect_sequence (init get_default_config false)
                     (Some (create_mock_face_landmarks 0.0))
                     scenario_hands 640 480)
  <> Some [false; false; true].
Proof.
  rewrite (scenario_run (create_mock_face_landmarks 0.0) false
             (mock_face_left 0.0) (mock_face_right 0.0)).
  cbn [option_map snd]. discriminate.
Qed.

(* ================================================================== *)
(** * The consecutive-frame counter *)

Lemma same_alert_state_refl a : same_alert_state a a.
Proof. repeat split. Qed.

Lemma same_alert_state_trans a b c :
  same_alert_state a b -> same_alert_state b c -> same_alert_state a c.
Proof.
  unfold same_alert_state. intros (-> & -> & -> & ->) (-> & -> & -> & ->).
  repeat split.
Qed.

Lemma detect_keeps_alert_state self face hand w h self' r :
  detect_eye_rubbing self face hand w h = Some (self', r) ->
  same_alert_state self self'.
Proof.
  unfold detect_eye_rubbing.
  destruct face as [face |], hand as [hand |];
    try (intros [= <- <-]; repeat split).
  destruct (get_eye_regions face w h) as [regions |]; [| discriminate].
  destruct (landmark hand INDEX_FINGER_TIP) as [tip |]; [| discriminate].
  cbn [bind].
  pose proof (motion_state self (to_pixels tip w h)) as Hstate.
  destruct (calculate_hand_motion self (to_pixels tip w h)) as [s v].
  cbn [fst] in Hstate. subst s.
  destruct (is_near_eye _ _ _ _ _); intros [= <- <-]; repeat split.
Qed.

Lemma check_hands_keeps_alert_state face w h hands :
  forall self acc self' r,
    check_hands self face hands w h acc = Some (self', r) ->
    same_alert_state self self'.
Proof.
  induction hands as [| hand rest IH]; intros self acc self' r; cbn [check_hands].
  - intros [= <- <-]. apply same_alert_state_refl.
  - destruct (detect_eye_rubbing self (Some face) (Some hand) w h)
      as [[s1 d] |] eqn:Hdetect; [| discriminate].
    cbn [bind]. intros Hrest.
    eapply same_alert_state_trans.
    + eapply detect_keeps_alert_state; exact Hdetect.
    + eapply IH; exact Hrest.
Qed.

Lemma frame_signal_keeps_alert_state self faces hands w h self' r :
  frame_signal self faces hands w h = Some (self', r) ->
  same_alert_state self self'.
Proof.
  unfold frame_signal.
  destruct (mapM _ (truthy faces)); [| discriminate]. cbn [bind].
  destruct (truthy faces) as [| face0 rest].
  - intros [= <- <-]. apply same_alert_state_refl.
  - apply check_hands_keeps_alert_state.
Qed.

(** C8.  On every frame [process_frame] adds one to
    [consecutive_detections] when the frame's rubbing signal is true and
    sets it to zero when it is false.  With a positive
    [consecutive_frames_threshold], a counter that has reached the
    threshold means [trigger_alert] was called on that frame, and a counter
    below it means no alert was emitted and [last_alert_time] was kept.
    [trigger_alert] never changes the counter, whether it fires or not. *)
Theorem counter_follows_rubbing_signal
    self faces hands w h now self' is_rubbing events :
  process_frame self faces hands w h now = Some (self', is_rubbing, events) ->
  (0 < consecutive_frames_threshold (detection (config self)))%Z ->
  consecutive_detections self'
  = (if is_rubbing then consecutive_detections self + 1 else 0)%Z
  /\ ((consecutive_frames_threshold (detection (config self))
         <= consecutive_detections self')%Z ->
      exists s,
        frame_signal self faces hands w h = Some (s, is_rubbing)
        /\ (self', events)
           = trigger_alert
               (set_consecutive_detections s (consecutive_detections self + 1))
               now)
  /\ ((consecutive_detections self'
         < consecutive_frames_threshold (detection (config self)))%Z ->
      events = [] /\ last_alert_time self' = last_alert_time self)
  /\ (forall s t,
        consecutive_detections (fst (trigger_alert s t))
        = consecutive_detections s).
Proof.
  intros Hrun Hthr.
  unfold process_frame in Hrun.
  destruct (frame_signal self faces hands w h) as [[s r] |] eqn:Hsignal;
    [| discriminate].
  cbn [bind] in Hrun.
  destruct (frame_signal_keeps_alert_state _ _ _ _ _ _ _ Hsignal)
    as (Hcfg & Hlast & Hcount & _).
  unfold handle_detection in Hrun.
  destruct r.
  - (* a rubbing frame *)
    cbn [set_consecutive_detections consecutive_detections config] in Hrun.
    rewrite Hcfg, Hcount in Hrun.
    destruct (Z.geb_spec (consecutive_detections self + 1)
                (consecutive_frames_threshold (detection (config self))))
      as [Hreached | Hbelow].
    + pose proof (trigger_alert_keeps_counter
                    (set_consecutive_detections
                       s (consecutive_detections self + 1)) now) as Hkeep.
      fold (set_consecutive_detections s (consecutive_detections self + 1))
        in Hrun.
      destruct (trigger_alert _ now) as [s2 ev] eqn:Hattempt.
      injection Hrun as <- <- <-. cbn [fst] in Hkeep.
      split; [exact Hkeep |].
      split; [intros _; exists s; split; [reflexivity | now rewrite Hattempt] |].
      split; [| apply trigger_alert_keeps_counter].
      intros Hlt. rewrite Hkeep in Hlt.
      cbn [set_consecutive_detections consecutive_detections] in Hlt. lia.
    + injection Hrun as <- <- <-.
      cbn [set_consecutive_detections consecutive_detections last_alert_time].
      split; [reflexivity |].
      split; [intros Hge; exfalso; lia |].
      split; [| apply trigger_alert_keeps_counter].
      intros _. split; [reflexivity | exact Hlast].
  - (* a frame without rubbing *)
    injection Hrun as <- <- <-.
    cbn [set_consecutive_detections consecutive_detections last_alert_time].
    split; [reflexivity |].
    split; [intros Hge; exfalso; lia |].
    split; [| apply trigger_alert_keeps_counter].
    intros _. split; [reflexivity | exact Hlast].
Qed.

(** The third rubbing frame of an episode under the default configuration:
    the counter reaches the threshold and the alert fires. *)
Lemma third_rubbing_frame_alerts :
  process_frame monitor_mid_episode
    (Some [create_mock_face_landmarks 0.0])
    (Some [create_mock_hand_landmarks 0.34 0.32 (-0.01)]) 640 480 1000
  = Some (set_last_alert_time
            (set_consecutive_detections
               (set_hand_position_history monitor_mid_episode
                  [(0.3 * 640, 0.3 * 480); (0.34 * 640, 0.32 * 480)]) 3)
            1000,
          true,
          [ {| alert_time := 1000; alert_sound := false |} ]).
Proof.
  destruct scenario_step_12 as [Hfast Hclose].
  pose proof (get_eye_regions_eyes_at _ _ _ 640 480 (mock_face_eyes_at 0.0))
    as Hreg.
  unfold to_pixels in Hreg; cbn [Landmark.x Landmark.y Landmark.z] in Hreg.
  unfold process_frame, frame_signal. cbn [truthy mapM check_hands].
  rewrite Hreg. cbn [bind ret].
  rewrite (detect_present _ _ (create_mock_hand_landmarks 0.34 0.32 (-0.01))
             640 480 _ (Landmark.mk 0.34 0.32 (-0.01)) Hreg eq_refl).
  unfold to_pixels; cbn [Landmark.x Landmark.y Landmark.z].
  rewrite near_left_eye;
    [ | unfold monitor_mid_episode; read_fields; lra
      | apply small_depth_gap; unfold monitor_mid_episode; read_fields; lra ].
  rewrite (hand_motion_second _ (0.3 * 640, 0.3 * 480))
    by (unfold monitor_mid_episode; read_fields; first [reflexivity | lia]).
  cbn [fst snd bind andb].
  replace (Cmp.geb (calculate_distance _ _ / 640) _) with true
    by (symmetry; apply geb_ge; unfold monitor_mid_episode; read_fields; lra).
  cbn [bind ret]. unfold handle_detection.
  replace (consecutive_detections _ >=? _)%Z with true by reflexivity.
  rewrite trigger_alert_fires
    by (unfold monitor_mid_episode; read_fields; lra).
  reflexivity.
Qed.

Lemma counter_follows_rubbing_signal_witness :
  process_frame monitor_mid_episode
    (Some [create_mock_face_landmarks 0.0])
    (Some [create_mock_hand_landmarks 0.34 0.32 (-0.01)]) 640 480 1000
  = Some (set_last_alert_time
            (set_consecutive_detections
               (set_hand_position_history monitor_mid_episode
                  [(0.3 * 640, 0.3 * 480); (0.34 * 640, 0.32 * 480)]) 3)
            1000,
          true,
          [ {| alert_time := 1000; alert_sound := false |} ])
  /\ consecutive_detections
       (set_last_alert_time
          (set_consecutive_detections
             (set_hand_position_history monitor_mid_episode
                [(0.3 * 640, 0.3 * 480); (0.34 * 640, 0.32 * 480)]) 3)
          1000)
     = (consecutive_detections monitor_mid_episode + 1)%Z.
Proof.
  assert (Hthr : (0 < consecutive_frames_threshold
                        (detection (config monitor_mid_episode)))%Z)
    by (unfold monitor_mid_episode; read_fields; lia).
  split; [exact third_rubbing_frame_alerts |].
  exact (proj1 (counter_follows_rubbing_signal _ _ _ _ _ _ _ _ _
                  third_rubbing_frame_alerts Hthr)).
Defined.

(* ================================================================== *)
(** * Further properties of the distance and of the velocity *)

Lemma sqrt_sum_squares_zero a b : sqrt (a ^ 2 + b ^ 2) = 0 -> a = 0 /\ b = 0.
Proof.
  intros H. apply sqrt_eq_0 in H; [| nra].
  split; nra.
Qed.



Lemma calculate_distance_zero p q : calculate_distance p q = 0 -> p = q.
Proof.
  intros H. apply sqrt_sum_squares_zero in H.
  destruct p as [px py], q as [qx qy]; cbn [fst snd] in H.
  f_equal; lra.
Qed.



Lemma consecutive_distances_nonneg history :
  Forall (fun d => 0 <= d) (consecutive_distances history).
Proof.
  induction history as [| p [| q rest] IH]; cbn [consecutive_distances];
    constructor; [apply sqrt_pos | exact IH].
Qed.

Lemma np_sum_nonneg l : Forall (fun d => 0 <= d) l -> 0 <= np_sum l.
Proof.
  induction 1 as [| d l Hd _ IH]; cbn [np_sum fold_right]; [lra |].
  fold (np_sum l). lra.
Qed.

Lemma np_sum_zero_iff l :
  Forall (fun d => 0 <= d) l -> (np_sum l = 0 <-> Forall (fun d => d = 0) l).
Proof.
  induction 1 as [| d l Hd Hl IH]; cbn [np_sum fold_right].
  - split; [constructor | reflexivity].
  - fold (np_sum l). pose proof (np_sum_nonneg l Hl) as Hsum. split.
    + intros H. constructor; [lra | apply IH; lra].
    + intros H. inversion H as [| ? ? Hd0 Hl0]; subst.
      apply IH in Hl0. lra.
Qed.

(** The history left by a call, when it is not empty, ends with the
    position just observed. *)
Lemma push_history_ends_with max_frames h pos :
  push_history max_frames h pos <> [] ->
  exists earlier, push_history max_frames h pos = earlier ++ [pos].
Proof.
  unfold push_history, pop0.
  destruct (Z.of_nat (length (h ++ [pos])) >? max_frames)%Z.
  - destruct h as [| a h]; cbn [app tl]; [congruence | eauto].
  - eauto.
Qed.

Lemma still_window_iff earlier pos :
  Forall (fun d => d = 0) (consecutive_distances (earlier ++ [pos]))
  <-> (forall p, In p (earlier ++ [pos]) -> p = pos).
Proof.
  induction earlier as [| a earlier IH]; cbn [app].
  - cbn [consecutive_distances]. split; [| constructor].
    intros _ p [<- | []]; reflexivity.
  - destruct (earlier ++ [pos]) as [| b rest] eqn:Hrest;
      [destruct earlier; discriminate |].
    cbn [consecutive_distances]. split.
    + intros H. inversion H as [| ? ? Hab Htail]; subst.
      apply calculate_distance_zero in Hab.
      subst a. intros p [<- | Hin]; apply IH; auto; now left.
    + intros H. constructor.
      * rewrite (H a (or_introl eq_refl)), (H b (or_intror (or_introl eq_refl))).
        apply calculate_distance_self.
      * apply IH. intros p Hin. apply H. now right.
Qed.

Lemma hand_motion_velocity self pos :
  let history :=
    push_history (max_history_frames self) (hand_position_history self) pos in
  snd (calculate_hand_motion self pos)
  = if (length history <? 2)%nat then 0
    else np_mean (consecutive_distances history).
Proof.
  intros history. unfold calculate_hand_motion. fold history.
  destruct (Nat.ltb_spec (length history) 2) as [Hlt | Hge]; [reflexivity |].
  cbn [snd]. rewrite motions_of_consecutive.
  destruct history as [| p [| q rest]]; cbn [length] in Hge; try lia.
  reflexivity.
Qed.

(** X2.  The velocity returned by [calculate_hand_motion] is never
    negative, and once the window holds two or more samples it is zero
    exactly when every position of the window equals the one just
    observed: a fingertip that did not move at all. *)
Theorem hand_motion_zero_iff_still self current_position :
  let history :=
    push_history (max_history_frames self) (hand_position_history self)
                 current_position in
  let velocity := snd (calculate_hand_motion self current_position) in
  0 <= velocity
  /\ ((2 <= length history)%nat ->
      (velocity = 0 <-> forall p, In p history -> p = current_position)).
Proof.
  intros history velocity.
  assert (Hv := hand_motion_velocity self current_position).
  fold history velocity in Hv.
  pose proof (consecutive_distances_nonneg history) as Hnn.
  pose proof (np_sum_nonneg _ Hnn) as Hsum.
  assert (Hmean : (2 <= length history)%nat ->
                  0 < INR (length (consecutive_distances history))).
  { intros Hlong. rewrite consecutive_distances_length.
    apply lt_0_INR. lia. }
  split.
  - rewrite Hv. destruct (Nat.ltb_spec (length history) 2); [lra |].
    unfold np_mean. apply Rmult_le_pos; [exact Hsum |].
    left. apply Rinv_0_lt_compat. apply Hmean. assumption.
  - intros Hlong. specialize (Hmean Hlong).
    rewrite Hv. destruct (Nat.ltb_spec (length history) 2); [lia |].
    destruct (push_history_ends_with (max_history_frames self)
                (hand_position_history self) current_position)
      as [earlier Hends].
    { fold history. destruct history; [cbn in Hlong; lia | discriminate]. }
    fold history in Hends. clearbody history velocity.
    assert (Hstill : Forall (fun d => d = 0) (consecutive_distances history)
                     <-> (forall p, In p history -> p = current_position))
      by (rewrite Hends; apply still_window_iff).
    rewrite <- Hstill, <- (np_sum_zero_iff _ Hnn).
    unfold np_mean. split.
    + intros Hzero.
      apply Rmult_integral in Hzero. destruct Hzero as [Hz | Hz]; [exact Hz |].
      pose proof (Rinv_0_lt_compat _ Hmean). lra.
    + intros ->. unfold Rdiv. ring.
Qed.




(* ================================================================== *)
(** * Further properties of [detect_eye_rubbing] *)

Lemma push_history_length_bound max_frames h p :
  (Z.of_nat (length h) <= max_frames)%Z ->
  (Z.of_nat (length (push_history max_frames h p)) <= max_frames)%Z.
Proof.
  intros Hlen.
  destruct (Z_lt_le_dec (Z.of_nat (length h)) max_frames) as [Hlt | Hge].
  - rewrite push_history_under by assumption.
    rewrite length_app; cbn [length]. lia.
  - rewrite push_history_over by assumption.
    destruct h as [| a h]; cbn [app tl length] in *; [lia |].
    rewrite length_app; cbn [length]. lia.
Qed.

(** What a successful call does to the monitor: the history is either
    emptied or pushed, every other field is kept. *)
Lemma detect_state self face hand w h self' r :
  detect_eye_rubbing self face hand w h = Some (self', r) ->
  self' = set_hand_position_history self []
  \/ exists tip,
       hand <> None /\ face <> None
       /\ (forall hd, hand = Some hd ->
                      landmark hd INDEX_FINGER_TIP = Some tip)
       /\ self' = set_hand_position_history self
                    (push_history (max_history_frames self)
                                  (hand_position_history self)
                                  (to_pixels tip w h)).
Proof.
  unfold detect_eye_rubbing.
  destruct face as [face |], hand as [hand |];
    try (intros [= <- <-]; now left).
  destruct (get_eye_regions face w h) as [regions |]; [| discriminate].
  destruct (landmark hand INDEX_FINGER_TIP) as [tip |] eqn:Htip;
    [| discriminate].
  cbn [bind].
  pose proof (motion_state self (to_pixels tip w h)) as Hstate.
  destruct (calculate_hand_motion self (to_pixels tip w h)) as [s v].
  cbn [fst] in Hstate. subst s.
  destruct (is_near_eye _ _ _ _ _); intros [= <- <-]; [right | now left].
  exists tip. repeat split; try discriminate.
  intros hd [= <-]. exact Htip.
Qed.

Lemma detect_within_capacity self face hand w h self' r :
  (Z.of_nat (length (hand_position_history self))
     <= max_history_frames self)%Z ->
  detect_eye_rubbing self face hand w h = Some (self', r) ->
  (Z.of_nat (length (hand_position_history self'))
     <= max_history_frames self')%Z
  /\ max_history_frames self' = max_history_frames self.
Proof.
  intros Hlen Hcall.
  destruct (detect_state _ _ _ _ _ _ _ Hcall) as [-> | (tip & _ & _ & _ & ->)];
    cbn [set_hand_position_history hand_position_history max_history_frames
         length].
  - split; [lia | reflexivity].
  - split; [now apply push_history_length_bound | reflexivity].
Qed.

(** X4.  A run of [detect_eye_rubbing] calls never lets the motion history
    grow beyond [max_history_frames]: if the history fits the capacity
    before the run, it fits after it, whatever the frames contain, and the
    capacity itself is not changed. *)
Theorem history_never_exceeds_capacity self face hands w h self' results :
  (Z.of_nat (length (hand_position_history self))
     <= max_history_frames self)%Z ->
  detect_sequence self face hands w h = Some (self', results) ->
  (Z.of_nat (length (hand_position_history self'))
     <= max_history_frames self')%Z
  /\ max_history_frames self' = max_history_frames self
  /\ length results = length hands.
Proof.
  revert self self' results.
  induction hands as [| hand hands IH]; intros self self' results Hlen;
    cbn [detect_sequence].
  - intros [= <- <-]. repeat split. exact Hlen.
  - destruct (detect_eye_rubbing self face hand w h) as [[s1 r] |] eqn:Hcall;
      [| discriminate].
    cbn [bind].
    destruct (detect_sequence s1 face hands w h) as [[s2 rs] |] eqn:Hrest;
      [| discriminate].
    cbn [bind]. intros [= <- <-].
    destruct (detect_within_capacity _ _ _ _ _ _ _ Hlen Hcall) as [Hlen1 Hmax1].
    destruct (IH _ _ _ Hlen1 Hrest) as (Hlen2 & Hmax2 & Hcount).
    repeat split; [exact Hlen2 | congruence | cbn [length]; now rewrite Hcount].
Qed.

Lemma history_never_exceeds_capacity_witness :
  exists self',
    detect_sequence (init get_default_config false)
                    (Some (create_mock_face_landmarks 0.0))
                    scenario_hands 640 480
    = Some (self', [false; true; true])
    /\ (Z.of_nat (length (hand_position_history self'))
          <= max_history_frames self')%Z.
Proof.
  eexists. split.
  - apply (scenario_run (create_mock_face_landmarks 0.0) false
             (mock_face_left 0.0) (mock_face_right 0.0)).
  - refine (proj1 (history_never_exceeds_capacity
                     (init get_default_config false)
                     (Some (create_mock_face_landmarks 0.0))
                     scenario_hands 640 480 _ _ _ _));
      [ cbn [init hand_position_history max_history_frames
             get_default_config detection motion_history_frames get length];
        lia
      | apply (scenario_run (create_mock_face_landmarks 0.0) false
                 (mock_face_left 0.0) (mock_face_right 0.0)) ].
Defined.


Lemma mapM_ext_in {A B} (f g : A -> Exc B) xs :
  (forall a, In a xs -> f a = g a) -> mapM f xs = mapM g xs.
Proof.
  induction xs as [| a xs IH]; intros Hext; cbn [mapM]; [reflexivity |].
  rewrite (Hext a (or_introl eq_refl)), IH; [reflexivity |].
  intros a' Hin. apply Hext. now right.
Qed.



(** X6.  [detect_eye_rubbing] reads nothing of a face but its fourteen
    eye landmarks and nothing of a hand but its index fingertip: two faces
    that agree there, and two hands that agree there, give the same result
    and the same monitor. *)
Theorem detect_reads_only_eyes_and_fingertip self f1 f2 h1 h2 w h :
  (forall idx, In idx (left_eye_indices ++ right_eye_indices) ->
               landmark f1 idx = landmark f2 idx) ->
  landmark h1 INDEX_FINGER_TIP = landmark h2 INDEX_FINGER_TIP ->
  detect_eye_rubbing self (Some f1) (Some h1) w h
  = detect_eye_rubbing self (Some f2) (Some h2) w h.
Proof.
  intros Hface Hhand.
  assert (Hregions : get_eye_regions f1 w h = get_eye_regions f2 w h).
  { unfold get_eye_regions.
    rewrite (mapM_ext_in (landmark f1) (landmark f2) left_eye_indices)
      by (intros; apply Hface, in_or_app; now left).
    rewrite (mapM_ext_in (landmark f1) (landmark f2) right_eye_indices)
      by (intros; apply Hface, in_or_app; now right).
    reflexivity. }
  unfold detect_eye_rubbing. rewrite Hregions, Hhand. reflexivity.
Qed.

Lemma detect_reads_only_eyes_and_fingertip_witness :
  detect_eye_rubbing (init get_default_config false)
    (Some (create_mock_face_landmarks 0.0))
    (Some (create_mock_hand_landmarks 0.3 0.3 0.0)) 640 480
  = detect_eye_rubbing (init get_default_config false)
      (Some (with_landmark (create_mock_face_landmarks 0.0) 1
                           (Landmark.mk 0.5 0.5 0.0)))
      (Some (with_landmark (create_mock_hand_landmarks 0.3 0.3 0.0) 4
                           (Landmark.mk 0.9 0.9 0.0))) 640 480.
Proof.
  apply (detect_reads_only_eyes_and_fingertip
           (init get_default_config false)
           (create_mock_face_landmarks 0.0)
           (with_landmark (create_mock_face_landmarks 0.0) 1
                          (Landmark.mk 0.5 0.5 0.0))
           (create_mock_hand_landmarks 0.3 0.3 0.0)
           (with_landmark (create_mock_hand_landmarks 0.3 0.3 0.0) 4
                          (Landmark.mk 0.9 0.9 0.0)) 640 480).
  - intros idx Hin.
    cbn [In app left_eye_indices right_eye_indices] in Hin.
    repeat (destruct Hin as [<- | Hin]; [reflexivity |]). contradiction.
  - reflexivity.
Defined.

(** The second sample of a rubbing movement, seen by [detect_eye_rubbing]
    on the fixture face. *)
Lemma second_sample_detects :
  detect_eye_rubbing monitor_mid_episode
    (Some (create_mock_face_landmarks 0.0))
    (Some (create_mock_hand_landmarks 0.34 0.32 (-0.01))) 640 480
  = Some (set_hand_position_history monitor_mid_episode
            [(0.3 * 640, 0.3 * 480); (0.34 * 640, 0.32 * 480)],
          true).
Proof.
  destruct scenario_step_12 as [Hfast Hclose].
  pose proof (get_eye_regions_eyes_at _ _ _ 640 480 (mock_face_eyes_at 0.0))
    as Hreg.
  unfold to_pixels in Hreg; cbn [Landmark.x Landmark.y Landmark.z] in Hreg.
  rewrite (detect_present _ _ (create_mock_hand_landmarks 0.34 0.32 (-0.01))
             640 480 _ (Landmark.mk 0.34 0.32 (-0.01)) Hreg eq_refl).
  unfold to_pixels; cbn [Landmark.x Landmark.y Landmark.z].
  rewrite near_left_eye;
    [ | unfold monitor_mid_episode; read_fields; lra
      | apply small_depth_gap; unfold monitor_mid_episode; read_fields; lra ].
  rewrite (hand_motion_second _ (0.3 * 640, 0.3 * 480))
    by (unfold monitor_mid_episode; read_fields; first [reflexivity | lia]).
  cbn [fst snd andb].
  replace (Cmp.geb (calculate_distance _ _ / 640) _) with true
    by (symmetry; apply geb_ge; unfold monitor_mid_episode; read_fields; lra).
  reflexivity.
Qed.

(** X7.  With a positive [motion_threshold], [detect_eye_rubbing] returns
    [True] only for a present face and hand whose fingertip is near an eye
    and whose normalized velocity reaches the threshold; the history then
    holds two or more samples and was not empty before the call, so the
    first call after a reset never detects. *)
Theorem detection_needs_proximity_and_motion self face hand w h self' :
  detect_eye_rubbing self face hand w h = Some (self', true) ->
  0 < get (motion_threshold (detection (config self))) 0.01 ->
  exists f hd regions tip,
    face = Some f /\ hand = Some hd
    /\ get_eye_regions f w h = Some regions
    /\ landmark hd INDEX_FINGER_TIP = Some tip
    /\ is_near_eye (config self) regions (to_pixels tip w h)
                   (Landmark.z tip) w = true
    /\ get (motion_threshold (detection (config self))) 0.01
       <= snd (calculate_hand_motion self (to_pixels tip w h)) / IZR w
    /\ (2 <= length (hand_position_history self'))%nat
    /\ hand_position_history self <> [].
Proof.
  intros Hcall Hthr.
  destruct face as [f |], hand as [hd |]; try discriminate Hcall.
  destruct (get_eye_regions f w h) as [regions |] eqn:Hregions;
    [| unfold detect_eye_rubbing in Hcall; rewrite Hregions in Hcall;
       discriminate].
  destruct (landmark hd INDEX_FINGER_TIP) as [tip |] eqn:Htip;
    [| unfold detect_eye_rubbing in Hcall; rewrite Hregions, Htip in Hcall;
       discriminate].
  rewrite (detect_present self f hd w h regions tip Hregions Htip) in Hcall.
  injection Hcall as Hstate Hresult.
  apply andb_true_iff in Hresult. destruct Hresult as [Hnear Hfast].
  apply geb_ge in Hfast. rewrite Hnear in Hstate.
  assert (Hv := hand_motion_velocity self (to_pixels tip w h)).
  cbv zeta in Hv.
  assert (Hhist : hand_position_history self'
                  = push_history (max_history_frames self)
                      (hand_position_history self) (to_pixels tip w h))
    by (rewrite <- Hstate; apply history_after_motion).
  assert (Hlong : (2 <= length (hand_position_history self'))%nat).
  { rewrite Hhist.
    destruct (Nat.ltb_spec
                (length (push_history (max_history_frames self)
                           (hand_position_history self) (to_pixels tip w h)))
                2) as [Hshort | Hok]; [| exact Hok].
    rewrite Hv in Hfast. unfold Rdiv in Hfast. rewrite Rmult_0_l in Hfast.
    lra. }
  exists f, hd, regions, tip. repeat split; try assumption.
  intros Hempty. rewrite Hhist, Hempty in Hlong.
  unfold push_history, pop0 in Hlong. cbn [app length] in Hlong.
  destruct (_ >? _)%Z; cbn [tl length] in Hlong; lia.
Qed.

Lemma detection_needs_proximity_and_motion_witness :
  exists f hd regions tip,
    Some (create_mock_face_landmarks 0.0) = Some f
    /\ Some (create_mock_hand_landmarks 0.34 0.32 (-0.01)) = Some hd
    /\ get_eye_regions f 640 480 = Some regions
    /\ landmark hd INDEX_FINGER_TIP = Some tip
    /\ is_near_eye (config monitor_mid_episode) regions
                   (to_pixels tip 640 480) (Landmark.z tip) 640 = true
    /\ get (motion_threshold (detection (config monitor_mid_episode))) 0.01
       <= snd (calculate_hand_motion monitor_mid_episode
                 (to_pixels tip 640 480)) / IZR 640
    /\ Nat.le 2 (length (hand_position_history
                            (set_hand_position_history monitor_mid_episode
                               [(0.3 * 640, 0.3 * 480);
                                (0.34 * 640, 0.32 * 480)])))
    /\ hand_position_history monitor_mid_episode <> [].
Proof.
  apply (detection_needs_proximity_and_motion monitor_mid_episode
           (Some (create_mock_face_landmarks 0.0))
           (Some (create_mock_hand_landmarks 0.34 0.32 (-0.01))) 640 480
           _ second_sample_detects).
  unfold monitor_mid_episode; read_fields; lra.
Defined.

Lemma settled_start history pos : settled history pos 0.
Proof.
  exists history, []. rewrite app_nil_r.
  repeat split; [constructor | right; cbn; lia].
Qed.

Lemma settled_nil pos count : settled [] pos count.
Proof. exists [], []. repeat split; [constructor | now left]. Qed.

Lemma settled_push max_frames history pos count :
  settled history pos count ->
  settled (push_history max_frames history pos) pos (S count).
Proof.
  intros (older & recent & -> & Hrecent & Hcount).
  assert (Hnew : Forall (eq pos) (recent ++ [pos]))
    by (apply Forall_app; split; [exact Hrecent | repeat constructor]).
  unfold push_history, pop0.
  destruct (_ >? _)%Z.
  - destruct older as [| a older]; cbn [app tl].
    + exists [], (tl (recent ++ [pos])). repeat split; [| now left].
      destruct (recent ++ [pos]); [constructor |].
      cbn [tl]. now inversion Hnew.
    + exists older, (recent ++ [pos]). rewrite <- app_assoc.
      repeat split; [exact Hnew |].
      right. destruct Hcount as [Hnil | Hcount]; [discriminate |].
      rewrite length_app; cbn [length]. lia.
  - exists older, (recent ++ [pos]). rewrite <- app_assoc.
    repeat split; [exact Hnew |].
    destruct Hcount as [Hnil | Hcount]; [now left | right].
    rewrite length_app; cbn [length]. lia.
Qed.

Lemma settled_all history pos count :
  settled history pos count ->
  (length history <= count)%nat ->
  forall p, In p history -> p = pos.
Proof.
  intros (older & recent & -> & Hrecent & Hcount) Hlen p Hin.
  rewrite length_app in Hlen.
  assert (Holder : older = []).
  { destruct Hcount as [Hnil | Hcount]; [exact Hnil |].
    destruct older; [reflexivity | cbn [length] in Hlen; lia]. }
  subst older. cbn [app] in Hin.
  rewrite Forall_forall in Hrecent. symmetry. now apply Hrecent.
Qed.

(** A window in which nothing moved gives velocity zero. *)
Lemma still_velocity_zero self pos :
  (forall p,
      In p (push_history (max_history_frames self)
                         (hand_position_history self) pos) -> p = pos) ->
  snd (calculate_hand_motion self pos) = 0.
Proof.
  intros Hstill. rewrite hand_motion_velocity.
  destruct (Nat.ltb_spec
              (length (push_history (max_history_frames self)
                         (hand_position_history self) pos)) 2)
    as [Hshort | Hlong]; [reflexivity |].
  destruct (push_history_ends_with (max_history_frames self)
              (hand_position_history self) pos) as [earlier Hends].
  { intros Hnil. rewrite Hnil in Hlong. cbn in Hlong. lia. }
  rewrite Hends in Hstill |- *.
  apply still_window_iff in Hstill.
  apply (np_sum_zero_iff _ (consecutive_distances_nonneg _)) in Hstill.
  unfold np_mean. rewrite Hstill. unfold Rdiv. ring.
Qed.

(** One more frame with the fingertip at [tip]. *)
Lemma resting_step self f hd tip w h count s1 r :
  landmark hd INDEX_FINGER_TIP = Some tip ->
  settled (hand_position_history self) (to_pixels tip w h) count ->
  (Z.of_nat (length (hand_position_history self))
     <= max_history_frames self)%Z ->
  0 < get (motion_threshold (detection (config self))) 0.01 ->
  detect_eye_rubbing self (Some f) (Some hd) w h = Some (s1, r) ->
  settled (hand_position_history s1) (to_pixels tip w h) (S count)
  /\ (Z.of_nat (length (hand_position_history s1))
        <= max_history_frames s1)%Z
  /\ max_history_frames s1 = max_history_frames self
  /\ config s1 = config self
  /\ ((max_history_frames self <= Z.of_nat count + 1)%Z -> r = false).
Proof.
  intros Htip Hsettled Hlen Hthr Hcall.
  destruct (detect_within_capacity _ _ _ _ _ _ _ Hlen Hcall) as [Hlen1 Hmax1].
  destruct (detect_keeps_alert_state _ _ _ _ _ _ _ Hcall) as (Hcfg & _).
  pose proof (settled_push (max_history_frames self) _ _ _ Hsettled) as Hpush.
  destruct (get_eye_regions f w h) as [regions |] eqn:Hregions;
    [| unfold detect_eye_rubbing in Hcall; rewrite Hregions in Hcall;
       discriminate].
  rewrite (detect_present self f hd w h regions tip Hregions Htip) in Hcall.
  injection Hcall as Hstate Hresult.
  split; [| split; [exact Hlen1 | split; [exact Hmax1 | split; [exact Hcfg |]]]].
  - rewrite <- Hstate.
    destruct (is_near_eye _ _ _ _ _);
      [rewrite history_after_motion; exact Hpush | apply settled_nil].
  - intros Hfull. rewrite <- Hresult.
    apply andb_false_iff; right. apply geb_lt.
    rewrite still_velocity_zero.
    + unfold Rdiv. rewrite Rmult_0_l. exact Hthr.
    + apply (settled_all _ _ _ Hpush).
      pose proof (push_history_length_bound (max_history_frames self)
                    (hand_position_history self) (to_pixels tip w h) Hlen).
      lia.
Qed.

Lemma resting_run f hd tip w h n :
  landmark hd INDEX_FINGER_TIP = Some tip ->
  forall self count self' results,
    settled (hand_position_history self) (to_pixels tip w h) count ->
    (Z.of_nat (length (hand_position_history self))
       <= max_history_frames self)%Z ->
    0 < get (motion_threshold (detection (config self))) 0.01 ->
    detect_sequence self (Some f) (repeat (Some hd) n) w h
    = Some (self', results) ->
    forall i, (i < n)%nat ->
              (max_history_frames self <= Z.of_nat (count + i) + 1)%Z ->
              nth i results true = false.
Proof.
  intros Htip. induction n as [| n IH];
    intros self count self' results Hsettled Hlen Hthr Hrun i Hi Hfull;
    [lia |].
  cbn [repeat detect_sequence] in Hrun.
  destruct (detect_eye_rubbing self (Some f) (Some hd) w h)
    as [[s1 r] |] eqn:Hcall; [| discriminate].
  cbn [bind] in Hrun.
  destruct (detect_sequence s1 (Some f) (repeat (Some hd) n) w h)
    as [[s2 rs] |] eqn:Hrest; [| discriminate].
  cbn [bind] in Hrun. injection Hrun as <- <-.
  destruct (resting_step _ _ _ _ _ _ _ _ _ Htip Hsettled Hlen Hthr Hcall)
    as (Hsettled1 & Hlen1 & Hmax1 & Hcfg1 & Hfalse).
  destruct i as [| i]; cbn [nth].
  - apply Hfalse. rewrite Nat.add_0_r in Hfull. exact Hfull.
  - apply (IH s1 (S count) s2 rs);
      [ exact Hsettled1 | exact Hlen1 | rewrite Hcfg1; exact Hthr
      | exact Hrest | lia | rewrite Hmax1; lia ].
Qed.

(** X8.  A fingertip that stays where it is stops being detected: in a
    run of calls with the same face and hand, the call number
    [max_history_frames] and every later one return [False], whatever
    movement the history recorded before the run (it only has to fit the
    capacity, and [motion_threshold] has to be positive). *)
Theorem resting_fingertip_stops_detection
    self f hd w h n self' results :
  (Z.of_nat (length (hand_position_history self))
     <= max_history_frames self)%Z ->
  0 < get (motion_threshold (detection (config self))) 0.01 ->
  detect_sequence self (Some f) (repeat (Some hd) n) w h
  = Some (self', results) ->
  forall i, (i < n)%nat ->
            (max_history_frames self <= Z.of_nat i + 1)%Z ->
            nth i results true = false.
Proof.
  intros Hlen Hthr Hrun i Hi Hfull.
  destruct (landmark hd INDEX_FINGER_TIP) as [tip |] eqn:Htip.
  - apply (resting_run f hd tip w h n Htip self 0%nat self' results);
      try assumption.
    apply settled_start.
  - destruct n as [| n]; [lia |].
    cbn [repeat detect_sequence] in Hrun.
    unfold detect_eye_rubbing in Hrun. rewrite Htip in Hrun.
    destruct (get_eye_regions f w h); discriminate.
Qed.

(** Two frames with the fingertip resting on the left eye of the fixture
    face, under a window of two frames. *)
Lemma resting_two_frames :
  detect_sequence (init short_window_config false)
    (Some (create_mock_face_landmarks 0.0))
    (repeat (Some (create_mock_hand_landmarks 0.3 0.3 0.0)) 2) 640 480
  = Some (set_hand_position_history (init short_window_config false)
            [(0.3 * 640, 0.3 * 480); (0.3 * 640, 0.3 * 480)],
          [false; false]).
Proof.
  pose proof (get_eye_regions_eyes_at _ _ _ 640 480 (mock_face_eyes_at 0.0))
    as Hreg.
  unfold to_pixels in Hreg; cbn [Landmark.x Landmark.y Landmark.z] in Hreg.
  cbn [repeat detect_sequence].
  rewrite (detect_present _ _ (create_mock_hand_landmarks 0.3 0.3 0.0)
             640 480 _ (Landmark.mk 0.3 0.3 0.0) Hreg eq_refl).
  unfold to_pixels; cbn [Landmark.x Landmark.y Landmark.z].
  rewrite near_left_eye;
    [ | rewrite calculate_distance_self; unfold short_window_config;
        read_fields; lra
      | apply small_depth_gap; unfold short_window_config; read_fields; lra ].
  rewrite hand_motion_first
    by (unfold short_window_config; read_fields; first [reflexivity | lia]).
  cbn [fst snd bind andb].
  replace (Cmp.geb (0 / 640) _) with false
    by (symmetry; apply geb_lt; unfold short_window_config; read_fields; lra).
  rewrite (detect_present _ _ (create_mock_hand_landmarks 0.3 0.3 0.0)
             640 480 _ (Landmark.mk 0.3 0.3 0.0) Hreg eq_refl).
  unfold to_pixels; cbn [Landmark.x Landmark.y Landmark.z].
  rewrite near_left_eye;
    [ | rewrite calculate_distance_self; unfold short_window_config;
        read_fields; lra
      | apply small_depth_gap; unfold short_window_config; read_fields; lra ].
  rewrite (hand_motion_second _ (0.3 * 640, 0.3 * 480))
    by (unfold short_window_config; read_fields; first [reflexivity | lia]).
  cbn [fst snd bind andb]. rewrite calculate_distance_self.
  replace (Cmp.geb (0 / 640) _) with false
    by (symmetry; apply geb_lt; unfold short_window_config; read_fields; lra).
  reflexivity.
Qed.

Lemma resting_fingertip_stops_detection_witness :
  detect_sequence (init short_window_config false)
    (Some (create_mock_face_landmarks 0.0))
    (repeat (Some (create_mock_hand_landmarks 0.3 0.3 0.0)) 2) 640 480
  = Some (set_hand_position_history (init short_window_config false)
            [(0.3 * 640, 0.3 * 480); (0.3 * 640, 0.3 * 480)],
          [false; false])
  /\ nth 1 [false; false] true = false.
Proof.
  split; [exact resting_two_frames |].
  apply (resting_fingertip_stops_detection
           (init short_window_config false)
           (create_mock_face_landmarks 0.0)
           (create_mock_hand_landmarks 0.3 0.3 0.0) 640 480 2
           (set_hand_position_history (init short_window_config false)
              [(0.3 * 640, 0.3 * 480); (0.3 * 640, 0.3 * 480)])
           [false; false]).
  - cbn [init hand_position_history max_history_frames short_window_config
         detection motion_history_frames get length]. lia.
  - unfold short_window_config; read_fields; lra.
  - exact resting_two_frames.
  - lia.
  - cbn [init max_history_frames short_window_config detection
         motion_history_frames get]. lia.
Defined.

(* ================================================================== *)
(** * Independence of the frame resolution *)

















(* ================================================================== *)
(** * Further properties of [process_frame] *)

Lemma set_history_same self :
  set_hand_position_history self (hand_position_history self) = self.
Proof. destruct self; reflexivity. Qed.

(** The detection part of a frame changes nothing but the history, and
    keeps it within the capacity. *)
Lemma check_hands_state face w h hands :
  forall self acc s r,
    check_hands self face hands w h acc = Some (s, r) ->
    exists history,
      s = set_hand_position_history self history
      /\ ((Z.of_nat (length (hand_position_history self))
             <= max_history_frames self)%Z ->
          (Z.of_nat (length history) <= max_history_frames self)%Z).
Proof.
  induction hands as [| hand rest IH]; intros self acc s r; cbn [check_hands].
  - intros [= <- <-]. exists (hand_position_history self).
    split; [symmetry; apply set_history_same | auto].
  - destruct (detect_eye_rubbing self (Some face) (Some hand) w h)
      as [[s1 d] |] eqn:Hdetect; [| discriminate].
    cbn [bind]. intros Hrest.
    destruct (IH _ _ _ _ Hrest) as (history & -> & Hcap).
    exists history. split.
    + destruct (detect_state _ _ _ _ _ _ _ Hdetect)
        as [-> | (tip & _ & _ & _ & ->)]; reflexivity.
    + intros Hlen.
      destruct (detect_within_capacity _ _ _ _ _ _ _ Hlen Hdetect)
        as [Hlen1 Hmax1].
      rewrite <- Hmax1. apply Hcap. exact Hlen1.
Qed.

Lemma frame_signal_state self faces hands w h s r :
  frame_signal self faces hands w h = Some (s, r) ->
  exists history,
    s = set_hand_position_history self history
    /\ ((Z.of_nat (length (hand_position_history self))
           <= max_history_frames self)%Z ->
        (Z.of_nat (length history) <= max_history_frames self)%Z).
Proof.
  unfold frame_signal.
  destruct (mapM _ (truthy faces)); [| discriminate]. cbn [bind].
  destruct (truthy faces) as [| face0 others].
  - intros [= <- <-]. exists (hand_position_history self).
    split; [symmetry; apply set_history_same | auto].
  - apply check_hands_state.
Qed.

(** What the counter-and-alert step of a frame can do. *)
Lemma handle_detection_cases self is_rubbing now :
  let self' := fst (handle_detection self is_rubbing now) in
  let events := snd (handle_detection self is_rubbing now) in
  config self' = config self
  /\ alert_cooldown self' = alert_cooldown self
  /\ max_history_frames self' = max_history_frames self
  /\ self_sound_enabled self' = self_sound_enabled self
  /\ hand_position_history self' = hand_position_history self
  /\ consecutive_detections self'
     = (if is_rubbing then consecutive_detections self + 1 else 0)%Z
  /\ ((events = [] /\ last_alert_time self' = last_alert_time self)
      \/ (events = [ {| alert_time := now;
                        alert_sound := self_sound_enabled self |} ]
          /\ is_rubbing = true
          /\ (consecutive_frames_threshold (detection (config self))
                <= consecutive_detections self + 1)%Z
          /\ alert_cooldown self <= now - last_alert_time self
          /\ last_alert_time self' = now)).
Proof.
  unfold handle_detection.
  destruct is_rubbing; [| cbn; repeat split; left; split; reflexivity].
  cbn [set_consecutive_detections consecutive_detections config].
  destruct (Z.geb_spec (consecutive_detections self + 1)
              (consecutive_frames_threshold (detection (config self))))
    as [Hreached | Hbelow];
    [| cbn; repeat split; left; split; reflexivity].
  unfold trigger_alert.
  cbn [set_consecutive_detections last_alert_time alert_cooldown
       self_sound_enabled].
  destruct (Cmp.ltb (now - last_alert_time self) (alert_cooldown self))
    eqn:Hcmp.
  - cbn; repeat split; left; split; reflexivity.
  - apply ltb_ge in Hcmp. cbn. repeat split. right. repeat split; assumption.
Qed.

Lemma process_frame_split self faces hands w h now self' r events :
  process_frame self faces hands w h now = Some (self', r, events) ->
  exists s,
    frame_signal self faces hands w h = Some (s, r)
    /\ self' = fst (handle_detection s r now)
    /\ events = snd (handle_detection s r now).
Proof.
  unfold process_frame.
  destruct (frame_signal self faces hands w h) as [[s r0] |]; [| discriminate].
  cbn [bind]. destruct (handle_detection s r0 now) as [s2 ev] eqn:Hstep.
  intros [= <- <- <-]. exists s. rewrite Hstep. repeat split.
Qed.

(** X10.  A frame emits at most one alert, and emits one only when the
    frame was judged rubbing, the counter has reached
    [consecutive_frames_threshold] and the cooldown since the last alert
    has passed; the alert carries the frame's clock reading, which becomes
    [last_alert_time].  A frame without alert leaves [last_alert_time]
    alone. *)
Theorem frame_alert_conditions self faces hands w h now self' r events :
  process_frame self faces hands w h now = Some (self', r, events) ->
  (length events <= 1)%nat
  /\ (events <> [] ->
      events = [ {| alert_time := now;
                    alert_sound := self_sound_enabled self |} ]
      /\ r = true
      /\ (consecutive_frames_threshold (detection (config self))
            <= consecutive_detections self')%Z
      /\ consecutive_detections self'
         = (consecutive_detections self + 1)%Z
      /\ alert_cooldown self <= now - last_alert_time self
      /\ last_alert_time self' = now)
  /\ (events = [] -> last_alert_time self' = last_alert_time self).
Proof.
  intros Hrun.
  destruct (process_frame_split _ _ _ _ _ _ _ _ _ Hrun)
    as (s & Hsignal & -> & ->).
  destruct (frame_signal_keeps_alert_state _ _ _ _ _ _ _ Hsignal)
    as (Hcfg & Hlast & Hcount & Hcd).
  destruct (frame_signal_state _ _ _ _ _ _ _ Hsignal) as (history & Hs & _).
  assert (Hsound : self_sound_enabled s = self_sound_enabled self)
    by (rewrite Hs; reflexivity).
  pose proof (handle_detection_cases s r now) as Hcases.
  cbv zeta in Hcases.
  destruct Hcases as (_ & _ & _ & _ & _ & Hcounter & Hevents).
  rewrite Hcfg, Hlast, Hcount, Hcd, Hsound in *.
  destruct Hevents as [[-> Hkeep] | (-> & -> & Hreached & Hcool & Hnow)].
  - split; [cbn; lia |]. split; [congruence | auto].
  - split; [cbn; lia |]. split; [| discriminate].
    intros _. rewrite Hcounter. repeat split; assumption.
Qed.

Lemma frame_alert_conditions_witness :
  (length [ {| alert_time := 1000; alert_sound := false |} ] <= 1)%nat
  /\ consecutive_detections
       (set_last_alert_time
          (set_consecutive_detections
             (set_hand_position_history monitor_mid_episode
                [(0.3 * 640, 0.3 * 480); (0.34 * 640, 0.32 * 480)]) 3)
          1000)
     = (consecutive_detections monitor_mid_episode + 1)%Z
  /\ alert_cooldown monitor_mid_episode
     <= 1000 - last_alert_time monitor_mid_episode.
Proof.
  destruct (frame_alert_conditions _ _ _ _ _ _ _ _ _
              third_rubbing_frame_alerts) as (Hone & Hfired & _).
  destruct (Hfired ltac:(discriminate)) as (_ & _ & _ & Hcount & Hcool & _).
  repeat split; assumption.
Defined.

(** X11.  [process_frame] never changes the configuration it was built
    with: [config], [alert_cooldown], [max_history_frames] and the sound
    switch are the same after every frame, and a motion history that fits
    [max_history_frames] before the frame still fits after it. *)
Theorem process_frame_keeps_configuration
    self faces hands w h now self' r events :
  process_frame self faces hands w h now = Some (self', r, events) ->
  config self' = config self
  /\ alert_cooldown self' = alert_cooldown self
  /\ max_history_frames self' = max_history_frames self
  /\ self_sound_enabled self' = self_sound_enabled self
  /\ ((Z.of_nat (length (hand_position_history self))
         <= max_history_frames self)%Z ->
      (Z.of_nat (length (hand_position_history self'))
         <= max_history_frames self')%Z).
Proof.
  intros Hrun.
  destruct (process_frame_split _ _ _ _ _ _ _ _ _ Hrun)
    as (s & Hsignal & -> & _).
  destruct (frame_signal_state _ _ _ _ _ _ _ Hsignal) as (history & -> & Hcap).
  pose proof (handle_detection_cases
                (set_hand_position_history self history) r now) as Hcases.
  cbv zeta in Hcases.
  destruct Hcases as (Hcfg & Hcd & Hmax & Hsound & Hhist & _).
  rewrite Hcfg, Hcd, Hmax, Hsound, Hhist.
  repeat split. exact Hcap.
Qed.

Lemma process_frame_keeps_configuration_witness :
  config
    (set_last_alert_time
       (set_consecutive_detections
          (set_hand_position_history monitor_mid_episode
             [(0.3 * 640, 0.3 * 480); (0.34 * 640, 0.32 * 480)]) 3)
       1000)
  = config monitor_mid_episode.
Proof.
  exact (proj1 (process_frame_keeps_configuration _ _ _ _ _ _ _ _ _
                  third_rubbing_frame_alerts)).
Defined.

(** X12.  On a frame without a detected face or without a detected hand
    [process_frame] does not call [detect_eye_rubbing] at all: the frame
    counts as not rubbing, the counter goes back to zero, no alert is
    emitted, and the motion history is kept as it was (it is not cleared,
    unlike what [detect_eye_rubbing] does when handed [None]). *)
Theorem frame_without_face_or_hand self faces hands w h now self' r events :
  process_frame self faces hands w h now = Some (self', r, events) ->
  truthy faces = [] \/ truthy hands = [] ->
  r = false /\ events = []
  /\ consecutive_detections self' = 0%Z
  /\ hand_position_history self' = hand_position_history self
  /\ last_alert_time self' = last_alert_time self.
Proof.
  intros Hrun Habsent.
  unfold process_frame, frame_signal in Hrun.
  destruct (mapM _ (truthy faces)); [| discriminate]. cbn [bind] in Hrun.
  assert (Hsignal :
            match truthy faces with
            | [] => ret (self, false)
            | face0 :: _ =>
                check_hands self face0 (truthy hands) w h false
            end = Some (self, false)).
  { destruct Habsent as [-> | ->]; [reflexivity |].
    destruct (truthy faces); reflexivity. }
  rewrite Hsignal in Hrun. cbn [bind handle_detection ret] in Hrun.
  injection Hrun as <- <- <-. repeat split.
Qed.

Lemma frame_without_face_or_hand_witness :
  hand_position_history
    (set_consecutive_detections monitor_mid_episode 0)
  = hand_position_history monitor_mid_episode.
Proof.
  refine (proj1 (proj2 (proj2 (proj2
            (frame_without_face_or_hand monitor_mid_episode
               (Some [create_mock_face_landmarks 0.0]) None 640 480 1000
               (set_consecutive_detections monitor_mid_episode 0) false []
               _ (or_intror eq_refl)))))).
  unfold process_frame, frame_signal. cbn [truthy mapM].
  rewrite (get_eye_regions_eyes_at _ _ _ 640 480 (mock_face_eyes_at 0.0)).
  reflexivity.
Defined.

(* ================================================================== *)
(** * Several hands in one frame *)

Lemma check_hands_as_sequence face w h hands :
  forall self acc,
    check_hands self face hands w h acc
    = option_map (fun sr => (fst sr, acc || existsb (fun b => b) (snd sr)))
        (detect_sequence self (Some face) (map Some hands) w h).
Proof.
  induction hands as [| hand rest IH]; intros self acc;
    cbn [check_hands map detect_sequence].
  - cbn [ret option_map fst snd existsb]. now rewrite orb_false_r.
  - destruct (detect_eye_rubbing self (Some face) (Some hand) w h)
      as [[s1 d] |]; [| reflexivity].
    cbn [bind]. rewrite IH.
    destruct (detect_sequence s1 (Some face) (map Some rest) w h)
      as [[s2 rs] |]; [| reflexivity].
    cbn [bind ret option_map fst snd existsb].
    destruct d, acc; reflexivity.
Qed.

(** X13.  With at least one face detected, the rubbing signal of a frame
    is the disjunction of [detect_eye_rubbing] over the detected hands,
    each call made against the first face only and on the monitor the call
    before left behind; the other faces matter only in that their eye
    regions must be computable. *)
Theorem frame_signal_is_any_hand self face0 others hands w h :
  frame_signal self (Some (face0 :: others)) hands w h
  = match mapM (fun f => get_eye_regions f w h) (face0 :: others) with
    | None => None
    | Some _ =>
        option_map (fun sr => (fst sr, existsb (fun b => b) (snd sr)))
          (detect_sequence self (Some face0) (map Some (truthy hands)) w h)
    end.
Proof.
  unfold frame_signal. cbn [truthy].
  destruct (mapM (fun f => get_eye_regions f w h) (face0 :: others));
    [| reflexivity].
  cbn [bind]. rewrite check_hands_as_sequence. reflexivity.
Qed.

Lemma detect_sequence_app face w h hands1 :
  forall self hands2,
    detect_sequence self face (hands1 ++ hands2) w h
    = bind (detect_sequence self face hands1 w h)
        (fun sr1 =>
           bind (detect_sequence (fst sr1) face hands2 w h)
             (fun sr2 => ret (fst sr2, snd sr1 ++ snd sr2))).
Proof.
  induction hands1 as [| hand rest IH]; intros self hands2;
    cbn [app detect_sequence].
  - cbn [ret bind fst snd app].
    destruct (detect_sequence self face hands2 w h) as [[s rs] |]; reflexivity.
  - destruct (detect_eye_rubbing self face hand w h) as [[s1 d] |];
      [| reflexivity].
    cbn [bind]. rewrite IH.
    destruct (detect_sequence s1 face rest w h) as [[s2 rs] |]; [| reflexivity].
    cbn [bind ret fst snd].
    destruct (detect_sequence s2 face hands2 w h) as [[s3 rs2] |]; reflexivity.
Qed.

Lemma detect_sequence_keeps_config face w h hands :
  forall self s rs,
    detect_sequence self face hands w h = Some (s, rs) ->
    config s = config self.
Proof.
  induction hands as [| hand rest IH]; intros self s rs; cbn [detect_sequence].
  - now intros [= <- <-].
  - destruct (detect_eye_rubbing self face hand w h) as [[s1 d] |] eqn:Hcall;
      [| discriminate].
    cbn [bind].
    destruct (detect_sequence s1 face rest w h) as [[s2 rs2] |] eqn:Hrest;
      [| discriminate].
    cbn [bind]. intros [= <- <-].
    rewrite (IH _ _ _ Hrest).
    now destruct (detect_keeps_alert_state _ _ _ _ _ _ _ Hcall) as (-> & _).
Qed.

(** X14.  The hands of a frame share one motion history: when the hand
    checked last is not near an eye, the history is empty after the frame,
    whatever the hands checked before it did, even when one of them made
    the frame count as rubbing. *)
Theorem last_hand_away_clears_history
    self face0 others earlier last_hand w h regions tip s r :
  frame_signal self (Some (face0 :: others))
               (Some (earlier ++ [last_hand])) w h = Some (s, r) ->
  get_eye_regions face0 w h = Some regions ->
  landmark last_hand INDEX_FINGER_TIP = Some tip ->
  is_near_eye (config self) regions (to_pixels tip w h) (Landmark.z tip) w
  = false ->
  hand_position_history s = [].
Proof.
  intros Hsignal Hregions Htip Hfar.
  unfold frame_signal in Hsignal. cbn [truthy] in Hsignal.
  destruct (mapM _ (face0 :: others)); [| discriminate].
  cbn [bind] in Hsignal.
  rewrite check_hands_as_sequence, map_app in Hsignal. cbn [map] in Hsignal.
  rewrite detect_sequence_app in Hsignal.
  destruct (detect_sequence self (Some face0) (map Some earlier) w h)
    as [[s1 rs1] |] eqn:Hearlier; [| discriminate].
  cbn [bind fst snd detect_sequence] in Hsignal.
  rewrite (detect_present s1 face0 last_hand w h regions tip Hregions Htip)
    in Hsignal.
  rewrite (detect_sequence_keeps_config _ _ _ _ _ _ _ Hearlier), Hfar
    in Hsignal.
  cbn [bind ret option_map fst snd] in Hsignal.
  injection Hsignal as <- _. reflexivity.
Qed.

Lemma far_corner_not_near cfg ld rd depth :
  eye_rub_threshold (detection cfg) = 0.15 ->
  is_near_eye cfg
    ((0.3 * 640, 0.3 * 480), (0.7 * 640, 0.3 * 480), ld, rd)
    (0.8 * 640, 0.8 * 480) depth 640 = false.
Proof.
  intros Hthr. unfold is_near_eye, eye_close, calculate_distance.
  rewrite Hthr. cbn [fst snd].
  apply orb_false_iff; split; apply andb_false_iff; left; apply ltb_ge.
  - assert (96 <= sqrt ((0.8 * 640 - 0.3 * 640) ^ 2
                        + (0.8 * 480 - 0.3 * 480) ^ 2))
      by (apply sqrt_ge_bound; lra).
    lra.
  - assert (96 <= sqrt ((0.8 * 640 - 0.7 * 640) ^ 2
                        + (0.8 * 480 - 0.3 * 480) ^ 2))
      by (apply sqrt_ge_bound; lra).
    lra.
Qed.

(** A frame with a rubbing hand and, checked after it, a hand far from
    the face. *)
Lemma rubbing_then_far_hand :
  frame_signal monitor_mid_episode
    (Some [create_mock_face_landmarks 0.0])
    (Some ([create_mock_hand_landmarks 0.34 0.32 (-0.01)]
           ++ [create_mock_hand_landmarks 0.8 0.8 0.0])) 640 480
  = Some (set_hand_position_history monitor_mid_episode [], true).
Proof.
  pose proof (get_eye_regions_eyes_at _ _ _ 640 480 (mock_face_eyes_at 0.0))
    as Hreg.
  unfold to_pixels in Hreg; cbn [Landmark.x Landmark.y Landmark.z] in Hreg.
  unfold frame_signal. cbn [truthy mapM app check_hands].
  rewrite Hreg. cbn [bind ret].
  rewrite second_sample_detects. cbn [bind].
  rewrite (detect_present _ _ (create_mock_hand_landmarks 0.8 0.8 0.0)
             640 480 _ (Landmark.mk 0.8 0.8 0.0) Hreg eq_refl).
  unfold to_pixels; cbn [Landmark.x Landmark.y Landmark.z].
  rewrite far_corner_not_near by reflexivity.
  reflexivity.
Qed.

Lemma last_hand_away_clears_history_witness :
  frame_signal monitor_mid_episode
    (Some [create_mock_face_landmarks 0.0])
    (Some ([create_mock_hand_landmarks 0.34 0.32 (-0.01)]
           ++ [create_mock_hand_landmarks 0.8 0.8 0.0])) 640 480
  = Some (set_hand_position_history monitor_mid_episode [], true)
  /\ hand_position_history
       (set_hand_position_history monitor_mid_episode []) = [].
Proof.
  split; [exact rubbing_then_far_hand |].
  apply (last_hand_away_clears_history
           monitor_mid_episode (create_mock_face_landmarks 0.0) []
           [create_mock_hand_landmarks 0.34 0.32 (-0.01)]
           (create_mock_hand_landmarks 0.8 0.8 0.0) 640 480
           ((0.3 * 640, 0.3 * 480), (0.7 * 640, 0.3 * 480), 0.0, 0.0)
           (Landmark.mk 0.8 0.8 0.0) _ true rubbing_then_far_hand).
  - pose proof (get_eye_regions_eyes_at _ _ _ 640 480
                  (mock_face_eyes_at 0.0)) as Hreg.
    exact Hreg.
  - reflexivity.
  - apply far_corner_not_near. reflexivity.
Defined.

(* ================================================================== *)
(** * Sessions: [process_frame] over many frames *)

Lemma process_frame_facts self faces hands w h now self' r events :
  process_frame self faces hands w h now = Some (self', r, events) ->
  config self' = config self
  /\ alert_cooldown self' = alert_cooldown self
  /\ consecutive_detections self'
     = count_frame (consecutive_detections self) r
  /\ ((events = [] /\ last_alert_time self' = last_alert_time self)
      \/ (events = [ {| alert_time := now;
                        alert_sound := self_sound_enabled self |} ]
          /\ (consecutive_frames_threshold (detection (config self))
                <= consecutive_detections self')%Z
          /\ alert_cooldown self <= now - last_alert_time self
          /\ last_alert_time self' = now)).
Proof.
  intros Hrun.
  destruct (process_frame_split _ _ _ _ _ _ _ _ _ Hrun)
    as (s & Hsignal & -> & ->).
  destruct (frame_signal_keeps_alert_state _ _ _ _ _ _ _ Hsignal)
    as (Hcfg & Hlast & Hcount & Hcd).
  destruct (frame_signal_state _ _ _ _ _ _ _ Hsignal) as (history & Hs & _).
  assert (Hsound : self_sound_enabled s = self_sound_enabled self)
    by (rewrite Hs; reflexivity).
  pose proof (handle_detection_cases s r now) as Hcases.
  cbv zeta in Hcases.
  destruct Hcases as (Hcfg' & Hcd' & _ & _ & _ & Hcounter & Hevents).
  rewrite Hcfg, Hlast, Hcount, Hcd, Hsound in *.
  repeat split; try assumption.
  destruct Hevents as [[-> Hkeep] | (-> & -> & Hreached & Hcool & Hnow)];
    [left; now split | right].
  rewrite Hcounter. repeat split; assumption.
Qed.

Lemma session_counter frames :
  forall self self' outs,
    process_frames self frames = Some (self', outs) ->
    consecutive_detections self'
    = fold_left count_frame (map fst outs) (consecutive_detections self)
    /\ length outs = length frames.
Proof.
  induction frames as [| f rest IH]; intros self self' outs;
    cbn [process_frames].
  - intros [= <- <-]. split; reflexivity.
  - destruct (process_frame self _ _ _ _ _) as [[[s1 r] ev] |] eqn:Hframe;
      [| discriminate].
    cbn [bind].
    destruct (process_frames s1 rest) as [[s2 outs2] |] eqn:Hrest;
      [| discriminate].
    cbn [bind]. intros [= <- <-].
    destruct (process_frame_facts _ _ _ _ _ _ _ _ _ Hframe)
      as (_ & _ & Hcount & _).
    destruct (IH _ _ _ Hrest) as [Hfold Hlen].
    cbn [map fst fold_left length]. rewrite Hfold, Hcount, Hlen.
    split; reflexivity.
Qed.

Lemma count_true_run n c :
  fold_left count_frame (repeat true n) c = (c + Z.of_nat n)%Z.
Proof.
  revert c; induction n as [| n IH]; intros c; cbn [repeat fold_left].
  - lia.
  - rewrite IH. unfold count_frame. lia.
Qed.

(** X15.  [consecutive_detections] is the length of the current run of
    rubbing frames: after a session whose results end with a non-rubbing
    frame followed by [n] rubbing frames the counter is [n], and after a
    session of [n] rubbing frames only it is its starting value plus
    [n]. *)
Theorem counter_is_rubbing_streak self frames self' outs n :
  process_frames self frames = Some (self', outs) ->
  (map fst outs = repeat true n ->
   consecutive_detections self'
   = (consecutive_detections self + Z.of_nat n)%Z)
  /\ (forall earlier,
        map fst outs = earlier ++ false :: repeat true n ->
        consecutive_detections self' = Z.of_nat n).
Proof.
  intros Hrun.
  destruct (session_counter _ _ _ _ Hrun) as [Hfold _].
  split.
  - intros Hall. rewrite Hfold, Hall. apply count_true_run.
  - intros earlier Hsplit. rewrite Hfold, Hsplit.
    rewrite fold_left_app. cbn [fold_left].
    change (count_frame _ false) with 0%Z.
    rewrite count_true_run. lia.
Qed.

Lemma alerting_session :
  process_frames monitor_mid_episode [alerting_frame]
  = Some (set_last_alert_time
            (set_consecutive_detections
               (set_hand_position_history monitor_mid_episode
                  [(0.3 * 640, 0.3 * 480); (0.34 * 640, 0.32 * 480)]) 3)
            1000,
          [(true, [ {| alert_time := 1000; alert_sound := false |} ])]).
Proof.
  cbn [process_frames alerting_frame frame_faces frame_hands frame_width
       frame_height frame_clock].
  rewrite third_rubbing_frame_alerts. reflexivity.
Qed.

Lemma counter_is_rubbing_streak_witness :
  consecutive_detections
    (set_last_alert_time
       (set_consecutive_detections
          (set_hand_position_history monitor_mid_episode
             [(0.3 * 640, 0.3 * 480); (0.34 * 640, 0.32 * 480)]) 3)
       1000)
  = (consecutive_detections monitor_mid_episode + Z.of_nat 1)%Z.
Proof.
  exact (proj1 (counter_is_rubbing_streak _ _ _ _ 1 alerting_session)
               eq_refl).
Defined.

Lemma count_nonneg results :
  forall c, (0 <= c)%Z -> (0 <= fold_left count_frame results c)%Z.
Proof.
  induction results as [| r results IH]; intros c Hc; cbn [fold_left];
    [exact Hc |].
  apply IH. unfold count_frame. destruct r; lia.
Qed.

(** The counter started at zero counts a genuine run: that many results
    at the end of the list are [true]. *)
Lemma count_is_suffix results :
  exists earlier,
    results
    = earlier ++ repeat true (Z.to_nat (fold_left count_frame results 0%Z)).
Proof.
  induction results as [| r results IH] using rev_ind.
  - now exists [].
  - rewrite fold_left_app. cbn [fold_left].
    destruct r; unfold count_frame at 1.
    + destruct IH as [earlier Hsplit].
      pose proof (count_nonneg results 0%Z ltac:(lia)) as Hnn.
      exists earlier.
      rewrite Z2Nat.inj_add, Nat.add_comm by lia.
      change (Z.to_nat 1) with 1%nat. cbn [Nat.add repeat].
      rewrite repeat_cons, app_assoc, <- Hsplit. reflexivity.
    + exists (results ++ [false]). cbn [Z.to_nat repeat].
      now rewrite app_nil_r.
Qed.

Lemma repeat_split_end {A} (a : A) (n k : nat) :
  (k <= n)%nat -> repeat a n = repeat a (n - k) ++ repeat a k.
Proof.
  intros Hk. rewrite <- repeat_app. f_equal. lia.
Qed.

Lemma alert_after_counted_run frames :
  forall self self' outs seen,
    process_frames self frames = Some (self', outs) ->
    consecutive_detections self = fold_left count_frame seen 0%Z ->
    forall before r events after,
      outs = before ++ (r, events) :: after ->
      events <> [] ->
      (consecutive_frames_threshold (detection (config self))
         <= fold_left count_frame (seen ++ map fst before ++ [r]) 0%Z)%Z.
Proof.
  induction frames as [| f rest IH]; intros self self' outs seen;
    cbn [process_frames].
  - intros [= <- <-] _ before r events after Hsplit.
    destruct before; discriminate.
  - destruct (process_frame self _ _ _ _ _) as [[[s1 r1] ev1] |] eqn:Hframe;
      [| discriminate].
    cbn [bind].
    destruct (process_frames s1 rest) as [[s2 outs2] |] eqn:Hrest;
      [| discriminate].
    cbn [bind]. intros [= <- <-] Hseen before r events after Hsplit Hfired.
    destruct (process_frame_facts _ _ _ _ _ _ _ _ _ Hframe)
      as (Hcfg & _ & Hcount & Hevents).
    destruct before as [| [rb evb] before]; cbn [app] in Hsplit;
      injection Hsplit as Hr Hev Hrest'.
    + subst r1 ev1. cbn [map app].
      rewrite fold_left_app. cbn [fold_left]. rewrite <- Hseen, <- Hcount.
      destruct Hevents as [[Hnone _] | (_ & Hreached & _)];
        [congruence | exact Hreached].
    + subst rb evb outs2. cbn [map fst app].
      replace (seen ++ r1 :: map fst before ++ [r])
        with ((seen ++ [r1]) ++ map fst before ++ [r])
        by (now rewrite <- app_assoc).
      rewrite <- Hcfg.
      apply (IH s1 s2 _ (seen ++ [r1]) Hrest) with (events := events)
                                                   (after := after);
        [| reflexivity | exact Hfired].
      rewrite fold_left_app. cbn [fold_left]. now rewrite <- Hseen.
Qed.

(** X16.  An alert means sustained rubbing.  In a session started with
    the counter at zero, every frame that emits an alert is the last of at
    least [consecutive_frames_threshold] rubbing frames in a row. *)
Theorem alert_needs_sustained_rubbing
    self frames self' outs before r events after :
  process_frames self frames = Some (self', outs) ->
  consecutive_detections self = 0%Z ->
  outs = before ++ (r, events) :: after ->
  events <> [] ->
  exists earlier,
    map fst (before ++ [(r, events)])
    = earlier
      ++ repeat true
           (Z.to_nat (consecutive_frames_threshold (detection (config self)))).
Proof.
  intros Hrun Hzero Hsplit Hfired.
  pose proof (alert_after_counted_run frames self self' outs [] Hrun Hzero
                before r events after Hsplit Hfired) as Hreached.
  cbn [app] in Hreached.
  rewrite map_app. cbn [map fst].
  destruct (count_is_suffix (map fst before ++ [r])) as [earlier Hsuffix].
  exists (earlier
          ++ repeat true
               (Z.to_nat (fold_left count_frame (map fst before ++ [r]) 0%Z)
                - Z.to_nat (consecutive_frames_threshold
                              (detection (config self))))).
  rewrite <- app_assoc, <- repeat_split_end by lia.
  exact Hsuffix.
Qed.

(** The second sample of a rubbing movement on the fixture face, for any
    monitor with the default thresholds that holds the first sample. *)
Lemma second_sample_detects_on self :
  hand_position_history self = [(0.3 * 640, 0.3 * 480)] ->
  (2 <= max_history_frames self)%Z ->
  eye_rub_threshold (detection (config self)) = 0.15 ->
  get (depth_threshold (detection (config self))) 0.05 = 0.05 ->
  get (motion_threshold (detection (config self))) 0.01 = 0.01 ->
  detect_eye_rubbing self
    (Some (create_mock_face_landmarks 0.0))
    (Some (create_mock_hand_landmarks 0.34 0.32 (-0.01))) 640 480
  = Some (set_hand_position_history self
            [(0.3 * 640, 0.3 * 480); (0.34 * 640, 0.32 * 480)],
          true).
Proof.
  intros Hhist Hmax Heye Hdepth Hmotion.
  destruct scenario_step_12 as [Hfast Hclose].
  pose proof (get_eye_regions_eyes_at _ _ _ 640 480 (mock_face_eyes_at 0.0))
    as Hreg.
  unfold to_pixels in Hreg; cbn [Landmark.x Landmark.y Landmark.z] in Hreg.
  rewrite (detect_present _ _ (create_mock_hand_landmarks 0.34 0.32 (-0.01))
             640 480 _ (Landmark.mk 0.34 0.32 (-0.01)) Hreg eq_refl).
  unfold to_pixels; cbn [Landmark.x Landmark.y Landmark.z].
  rewrite near_left_eye;
    [ | rewrite Heye; lra | rewrite Hdepth; apply small_depth_gap; lra ].
  rewrite (hand_motion_second _ (0.3 * 640, 0.3 * 480)) by assumption.
  cbn [fst snd andb]. rewrite Hmotion.
  replace (Cmp.geb (calculate_distance _ _ / 640) _) with true
    by (symmetry; apply geb_ge; lra).
  reflexivity.
Qed.

Lemma eager_session :
  process_frames monitor_eager [alerting_frame]
  = Some (set_last_alert_time
            (set_consecutive_detections
               (set_hand_position_history monitor_eager
                  [(0.3 * 640, 0.3 * 480); (0.34 * 640, 0.32 * 480)]) 1)
            1000,
          [(true, [ {| alert_time := 1000; alert_sound := false |} ])]).
Proof.
  pose proof (get_eye_regions_eyes_at _ _ _ 640 480 (mock_face_eyes_at 0.0))
    as Hreg.
  cbn [process_frames alerting_frame frame_faces frame_hands frame_width
       frame_height frame_clock].
  unfold process_frame, frame_signal. cbn [truthy mapM check_hands].
  rewrite Hreg. cbn [bind ret].
  rewrite second_sample_detects_on;
    try (unfold monitor_eager, eager_config; read_fields;
         first [reflexivity | lia]).
  cbn [bind ret]. unfold handle_detection.
  replace (consecutive_detections _ >=? _)%Z with true by reflexivity.
  rewrite trigger_alert_fires
    by (unfold monitor_eager, eager_config; read_fields; lra).
  reflexivity.
Qed.

Lemma alert_needs_sustained_rubbing_witness :
  exists earlier,
    map fst ([] ++ [(true, [ {| alert_time := 1000; alert_sound := false |} ])])
    = earlier
      ++ repeat true
           (Z.to_nat (consecutive_frames_threshold
                        (detection (config monitor_eager)))).
Proof.
  apply (alert_needs_sustained_rubbing
           monitor_eager [alerting_frame] _ _ [] true
           [ {| alert_time := 1000; alert_sound := false |} ] []
           eager_session).
  - reflexivity.
  - reflexivity.
  - discriminate.
Defined.

Lemma last_default_irrelevant {A} (l : list A) :
  forall a d1 d2, last (a :: l) d1 = last (a :: l) d2.
Proof.
  induction l as [| b l IH]; intros a d1 d2; [reflexivity |].
  change (last (a :: b :: l) d1) with (last (b :: l) d1).
  change (last (a :: b :: l) d2) with (last (b :: l) d2).
  apply IH.
Qed.

Lemma last_cons_default {A} (a d : A) l : last (a :: l) d = last l a.
Proof.
  destruct l as [| b l]; [reflexivity |].
  change (last (a :: b :: l) d) with (last (b :: l) d).
  apply last_default_irrelevant.
Qed.

(** X17.  Alerts keep the cooldown over a whole session: listed in order,
    every alert comes at least [alert_cooldown] after the one before, the
    first at least [alert_cooldown] after the [last_alert_time] the session
    started with.  There are never more alerts than frames, and
    [last_alert_time] ends as the time of the last alert. *)
Theorem session_alerts_keep_cooldown frames :
  forall self self' outs,
    process_frames self frames = Some (self', outs) ->
    spaced (alert_cooldown self) (last_alert_time self)
           (map alert_time (session_alerts outs))
    /\ (length (session_alerts outs) <= length frames)%nat
    /\ last_alert_time self'
       = last (map alert_time (session_alerts outs)) (last_alert_time self).
Proof.
  induction frames as [| f rest IH]; intros self self' outs;
    cbn [process_frames].
  - intros [= <- <-]. cbn. repeat split. lia.
  - destruct (process_frame self _ _ _ _ _) as [[[s1 r] ev] |] eqn:Hframe;
      [| discriminate].
    cbn [bind].
    destruct (process_frames s1 rest) as [[s2 outs2] |] eqn:Hrest;
      [| discriminate].
    cbn [bind]. intros [= <- <-].
    destruct (process_frame_facts _ _ _ _ _ _ _ _ _ Hframe)
      as (_ & Hcd & _ & Hevents).
    destruct (IH _ _ _ Hrest) as (Hspaced & Hcount & Hlast).
    rewrite Hcd in Hspaced.
    unfold session_alerts in *. cbn [map snd concat length].
    destruct Hevents as [[-> Hkeep] | (-> & _ & Hcool & Hnow)];
      cbn [app map alert_time length].
    + rewrite Hkeep in Hspaced, Hlast.
      repeat split; [exact Hspaced | lia | exact Hlast].
    + rewrite Hnow in Hspaced, Hlast.
      repeat split; [exact Hcool | exact Hspaced | lia |].
      rewrite Hlast. symmetry. apply last_cons_default.
Qed.

Lemma session_alerts_keep_cooldown_witness :
  spaced (alert_cooldown monitor_mid_episode)
         (last_alert_time monitor_mid_episode)
         (map alert_time
              (session_alerts
                 [(true, [ {| alert_time := 1000; alert_sound := false |} ])]))
  /\ (length (session_alerts
                [(true, [ {| alert_time := 1000; alert_sound := false |} ])])
      <= length [alerting_frame])%nat.
Proof.
  destruct (session_alerts_keep_cooldown [alerting_frame] _ _ _
              alerting_session) as (Hspaced & Hcount & _).
  split; [exact Hspaced | exact Hcount].
Defined.

(* ================================================================== *)
(** * The loop of [run] and the FPS counter *)

Lemma fps_run_snoc fps clocks c :
  fps_run fps (clocks ++ [c]) = update_fps (fps_run fps clocks) (fst c) (snd c).
Proof. unfold fps_run. now rewrite fold_left_app. Qed.

Lemma ratio_below a e : 0 <= a -> 1 < e -> 0 <= a / e <= a.
Proof.
  intros Ha He.
  assert (Hinv : 0 < / e) by (apply Rinv_0_lt_compat; lra).
  assert (Hone : / e * e = 1) by (apply Rinv_l; lra).
  unfold Rdiv. split; nra.
Qed.

(** X18.  The FPS bookkeeping stays meaningful whatever the clock does:
    after any number of [update_fps] calls the frame counter is between
    zero and the number of calls, and the reported rate is between zero
    and the number of calls; a call that finds more than one second
    elapsed restarts the counter at zero and the period at the second
    clock reading. *)
Theorem fps_stays_within_frames now clocks :
  let fps := fps_run (init_fps now) clocks in
  (0 <= fps_frame_count fps <= Z.of_nat (length clocks))%Z
  /\ 0 <= current_fps fps <= INR (length clocks)
  /\ (forall t restart,
        1.0 < t - fps_start_time fps ->
        fps_frame_count (update_fps fps t restart) = 0%Z
        /\ fps_start_time (update_fps fps t restart) = restart
        /\ current_fps (update_fps fps t restart) * (t - fps_start_time fps)
           = IZR (fps_frame_count fps + 1)).
Proof.
  intros fps.
  assert (Hinv : (0 <= fps_frame_count fps <= Z.of_nat (length clocks))%Z
                 /\ 0 <= current_fps fps <= INR (length clocks)).
  { subst fps. induction clocks as [| c clocks IH] using rev_ind.
    - cbn. split; [lia | lra].
    - rewrite fps_run_snoc, length_app. cbn [length].
      rewrite Nat.add_1_r, S_INR.
      destruct IH as [Hcount Hrate].
      set (st := fps_run (init_fps now) clocks) in *.
      unfold update_fps.
      destruct (Cmp.ltb 1.0 (fst c - fps_start_time st)) eqn:Hcmp;
        cbn [fps_frame_count current_fps].
      + apply ltb_lt in Hcmp. split; [lia |].
        assert (Hnum : 0 <= IZR (fps_frame_count st + 1) <= INR (length clocks) + 1).
        { rewrite plus_IZR. destruct Hcount as [Hlo Hhi].
          apply IZR_le in Hlo, Hhi. rewrite <- INR_IZR_INZ in Hhi. lra. }
        pose proof (ratio_below (IZR (fps_frame_count st + 1))
                      (fst c - fps_start_time st) (proj1 Hnum)
                      ltac:(lra)).
        lra.
      + split; [lia | lra]. }
  split; [exact (proj1 Hinv) | split; [exact (proj2 Hinv) |]].
  intros t restart Hlate.
  unfold update_fps.
  apply ltb_lt in Hlate. rewrite Hlate. cbn [fps_frame_count fps_start_time
                                              current_fps].
  repeat split. field. apply ltb_lt in Hlate. lra.
Qed.

(** X19.  The loop of [run] processes exactly the frames read before the
    first failed read, up to and including the frame on which [q] is
    pressed: its monitor and its per-frame outputs are those of
    [process_frame] alone on these frames, it raises when that raises, and
    the FPS counter has been updated once per processed frame without any
    influence on detection or alerts. *)
Theorem run_loop_processes_prefix ticks :
  forall self fps,
    option_map (fun x => (fst (fst x), snd x)) (run_loop self fps ticks)
    = process_frames self (map tick_frame (processed ticks))
    /\ (forall s f outs,
          run_loop self fps ticks = Some (s, f, outs) ->
          f = fps_run fps
                (map (fun t => (tick_fps_now t, tick_fps_restart t))
                     (processed ticks))
          /\ length outs = length (processed ticks)).
Proof.
  induction ticks as [| t rest IH]; intros self fps;
    cbn [run_loop processed].
  - split; [reflexivity |]. intros s f outs [= <- <- <-]. split; reflexivity.
  - destruct (grabbed t); cbn [negb];
      [| split; [reflexivity
                | intros s f outs [= <- <- <-]; split; reflexivity]].
    destruct (quit_key t).
    + cbn [map process_frames].
      destruct (process_frame self _ _ _ _ _) as [[[s1 r] ev] |];
        cbn [bind ret option_map fst snd];
        [| split; [reflexivity | discriminate]].
      split; [reflexivity |].
      intros s f outs [= <- <- <-]. split; reflexivity.
    + cbn [map process_frames].
      destruct (process_frame self _ _ _ _ _) as [[[s1 r] ev] |];
        cbn [bind]; [| split; [reflexivity | discriminate]].
      destruct (IH s1 (update_fps fps (tick_fps_now t) (tick_fps_restart t)))
        as [Hsame Hfps].
      rewrite <- Hsame.
      destruct (run_loop s1 _ rest) as [[[s2 f2] outs2] |];
        cbn [bind ret option_map fst snd];
        [| split; [reflexivity | discriminate]].
      split; [reflexivity |].
      intros s f outs [= <- <- <-].
      destruct (Hfps s2 f2 outs2 eq_refl) as [-> Hlen].
      cbn [length]. rewrite Hlen. split; reflexivity.
Qed.

(* ================================================================== *)
(** * Sustained rubbing does alert *)

Lemma process_frames_app frames1 :
  forall self frames2,
    process_frames self (frames1 ++ frames2)
    = bind (process_frames self frames1)
        (fun so1 =>
           bind (process_frames (fst so1) frames2)
             (fun so2 => ret (fst so2, snd so1 ++ snd so2))).
Proof.
  induction frames1 as [| f rest IH]; intros self frames2;
    cbn [app process_frames].
  - cbn [ret bind fst snd app].
    destruct (process_frames self frames2) as [[s outs] |]; reflexivity.
  - destruct (process_frame self _ _ _ _ _) as [[[s1 r] ev] |];
      [| reflexivity].
    cbn [bind]. rewrite IH.
    destruct (process_frames s1 rest) as [[s2 outs] |]; [| reflexivity].
    cbn [bind ret fst snd].
    destruct (process_frames s2 frames2) as [[s3 outs2] |]; reflexivity.
Qed.

(** A rubbing frame that brings the counter to the threshold makes the
    attempt, and the attempt is decided by the cooldown alone. *)
Lemma process_frame_attempt self faces hands w h now self' events :
  process_frame self faces hands w h now = Some (self', true, events) ->
  (consecutive_frames_threshold (detection (config self))
     <= consecutive_detections self + 1)%Z ->
  events
  = if Cmp.ltb (now - last_alert_time self) (alert_cooldown self) then []
    else [ {| alert_time := now; alert_sound := self_sound_enabled self |} ].
Proof.
  intros Hrun Hreached.
  destruct (process_frame_split _ _ _ _ _ _ _ _ _ Hrun)
    as (s & Hsignal & _ & ->).
  destruct (frame_signal_keeps_alert_state _ _ _ _ _ _ _ Hsignal)
    as (Hcfg & Hlast & Hcount & Hcd).
  destruct (frame_signal_state _ _ _ _ _ _ _ Hsignal) as (history & Hs & _).
  assert (Hsound : self_sound_enabled s = self_sound_enabled self)
    by (rewrite Hs; reflexivity).
  unfold handle_detection.
  cbn [set_consecutive_detections consecutive_detections config].
  rewrite Hcfg, Hcount.
  destruct (Z.geb_spec (consecutive_detections self + 1)
              (consecutive_frames_threshold (detection (config self))));
    [| lia].
  unfold trigger_alert.
  cbn [set_consecutive_detections last_alert_time alert_cooldown
       self_sound_enabled].
  rewrite Hlast, Hcd, Hsound.
  destruct (Cmp.ltb _ _); reflexivity.
Qed.

Lemma process_frame_keeps_sound self faces hands w h now self' r events :
  process_frame self faces hands w h now = Some (self', r, events) ->
  self_sound_enabled self' = self_sound_enabled self.
Proof.
  intros Hrun.
  destruct (process_frame_split _ _ _ _ _ _ _ _ _ Hrun)
    as (s & Hsignal & -> & _).
  destruct (frame_signal_state _ _ _ _ _ _ _ Hsignal) as (history & -> & _).
  pose proof (handle_detection_cases
                (set_hand_position_history self history) r now) as Hcases.
  cbv zeta in Hcases.
  destruct Hcases as (_ & _ & _ & Hsound & _).
  rewrite Hsound. reflexivity.
Qed.

(** Rubbing frames that keep the counter below the threshold are silent. *)
Lemma quiet_build_up frames :
  forall self self' outs,
    process_frames self frames = Some (self', outs) ->
    map fst outs = repeat true (length outs) ->
    (consecutive_detections self + Z.of_nat (length frames)
       < consecutive_frames_threshold (detection (config self)))%Z ->
    session_alerts outs = []
    /\ last_alert_time self' = last_alert_time self
    /\ alert_cooldown self' = alert_cooldown self
    /\ config self' = config self
    /\ self_sound_enabled self' = self_sound_enabled self
    /\ consecutive_detections self'
       = (consecutive_detections self + Z.of_nat (length frames))%Z.
Proof.
  induction frames as [| f rest IH]; intros self self' outs;
    cbn [process_frames].
  - intros [= <- <-] _ _. cbn [length Z.of_nat]. repeat split. lia.
  - destruct (process_frame self _ _ _ _ _) as [[[s1 r] ev] |] eqn:Hframe;
      [| discriminate].
    cbn [bind].
    destruct (process_frames s1 rest) as [[s2 outs2] |] eqn:Hrest;
      [| discriminate].
    cbn [bind]. intros [= <- <-] Hall Hbelow.
    cbn [map fst length repeat] in Hall. injection Hall as -> Hall.
    cbn [length] in Hbelow.
    destruct (process_frame_facts _ _ _ _ _ _ _ _ _ Hframe)
      as (Hcfg & Hcd & Hcount & Hevents).
    pose proof (process_frame_keeps_sound _ _ _ _ _ _ _ _ _ Hframe) as Hsound.
    unfold count_frame in Hcount.
    destruct Hevents as [[-> Hkeep] | (_ & Hreached & _)]; [| lia].
    destruct (IH _ _ _ Hrest Hall) as (Hquiet & Hlast & Hcd2 & Hcfg2 & Hs2 & Hc2).
    { rewrite Hcfg, Hcount. lia. }
    unfold session_alerts in *. cbn [map snd concat app].
    rewrite Hquiet, Hlast, Hkeep, Hcd2, Hcd, Hcfg2, Hcfg, Hs2, Hsound, Hc2,
      Hcount.
    repeat split. cbn [length]. lia.
Qed.

(** X20.  No missed alert.  When a session started with the counter at
    zero consists of [consecutive_frames_threshold] rubbing frames, the
    frames before the last emit nothing, and the last one emits an alert
    exactly when its clock reading is at least [alert_cooldown] after the
    [last_alert_time] the session started with. *)
Theorem sustained_rubbing_alerts self frames last_frame self' outs :
  process_frames self (frames ++ [last_frame]) = Some (self', outs) ->
  consecutive_detections self = 0%Z ->
  map fst outs = repeat true (length outs) ->
  (Z.of_nat (length frames) + 1
   = consecutive_frames_threshold (detection (config self)))%Z ->
  session_alerts outs
  = if Cmp.ltb (frame_clock last_frame - last_alert_time self)
               (alert_cooldown self)
    then []
    else [ {| alert_time := frame_clock last_frame;
              alert_sound := self_sound_enabled self |} ].
Proof.
  intros Hrun Hzero Hall Hthr.
  rewrite process_frames_app in Hrun.
  destruct (process_frames self frames) as [[s1 outs1] |] eqn:Hbuild;
    [| discriminate].
  cbn [bind fst snd process_frames] in Hrun.
  destruct (process_frame s1 _ _ _ _ _) as [[[s2 r] ev] |] eqn:Hlast;
    [| discriminate].
  cbn [bind ret fst snd] in Hrun. injection Hrun as <- <-.
  destruct (session_counter _ _ _ _ Hbuild) as [_ Hlen1].
  rewrite length_app, map_app, repeat_app in Hall. cbn [length map fst repeat]
    in Hall.
  apply app_inj_tail_iff in Hall. destruct Hall as [Hall1 ->].
  destruct (quiet_build_up _ _ _ _ Hbuild Hall1)
    as (Hquiet & Hlast1 & Hcd1 & Hcfg1 & Hsound1 & Hcount1);
    [lia |].
  unfold session_alerts in *. rewrite map_app, concat_app, Hquiet.
  cbn [map snd concat app]. rewrite app_nil_r.
  rewrite (process_frame_attempt _ _ _ _ _ _ _ _ Hlast)
    by (rewrite Hcfg1, Hcount1; lia).
  now rewrite Hlast1, Hcd1, Hsound1.
Qed.

Lemma sustained_rubbing_alerts_witness :
  session_alerts [(true, [ {| alert_time := 1000; alert_sound := false |} ])]
  = if Cmp.ltb (frame_clock alerting_frame - last_alert_time monitor_eager)
               (alert_cooldown monitor_eager)
    then []
    else [ {| alert_time := frame_clock alerting_frame;
              alert_sound := self_sound_enabled monitor_eager |} ].
Proof.
  apply (sustained_rubbing_alerts monitor_eager [] alerting_frame _ _
           eager_session); reflexivity.
Defined.

(* ================================================================== *)
(** * Loosening the thresholds *)

Lemma eye_close_monotone pos depth center eye_depth w thr1 thr2 d1 d2 :
  thr1 <= thr2 -> d1 <= d2 ->
  eye_close pos depth center eye_depth w thr1 d1 = true ->
  eye_close pos depth center eye_depth w thr2 d2 = true.
Proof.
  intros Hthr Hd Hclose.
  apply eye_close_iff in Hclose. apply eye_close_iff. lra.
Qed.

(** X21.  Loosening the thresholds never loses a detection on the same
    frame: if [detect_eye_rubbing] returns [True], it also returns [True]
    for a monitor with the same history and capacity whose
    [eye_rub_threshold] and [depth_threshold] are at least as large and
    whose [motion_threshold] is at most as large, and both monitors
    remember the same positions afterwards. *)
Theorem loosening_thresholds_keeps_detection
    self1 self2 face hand w h s1 :
  hand_position_history self2 = hand_position_history self1 ->
  max_history_frames self2 = max_history_frames self1 ->
  eye_rub_threshold (detection (config self1))
  <= eye_rub_threshold (detection (config self2)) ->
  get (depth_threshold (detection (config self1))) 0.05
  <= get (depth_threshold (detection (config self2))) 0.05 ->
  get (motion_threshold (detection (config self2))) 0.01
  <= get (motion_threshold (detection (config self1))) 0.01 ->
  detect_eye_rubbing self1 face hand w h = Some (s1, true) ->
  exists s2,
    detect_eye_rubbing self2 face hand w h = Some (s2, true)
    /\ hand_position_history s2 = hand_position_history s1.
Proof.
  intros Hhist Hmax Heye Hdepth Hmotion Hcall.
  destruct face as [f |], hand as [hd |]; try discriminate Hcall.
  destruct (get_eye_regions f w h) as [regions |] eqn:Hregions;
    [| unfold detect_eye_rubbing in Hcall; rewrite Hregions in Hcall;
       discriminate].
  destruct (landmark hd INDEX_FINGER_TIP) as [tip |] eqn:Htip;
    [| unfold detect_eye_rubbing in Hcall; rewrite Hregions, Htip in Hcall;
       discriminate].
  rewrite (detect_present self1 f hd w h regions tip Hregions Htip) in Hcall.
  rewrite (detect_present self2 f hd w h regions tip Hregions Htip).
  injection Hcall as Hstate Hresult.
  apply andb_true_iff in Hresult. destruct Hresult as [Hnear Hfast].
  apply geb_ge in Hfast. rewrite Hnear in Hstate.
  assert (Hnear2 : is_near_eye (config self2) regions (to_pixels tip w h)
                               (Landmark.z tip) w = true).
  { destruct regions as [[[lc rc] ld] rd]. unfold is_near_eye in *.
    apply orb_true_iff in Hnear. apply orb_true_iff.
    destruct Hnear as [Hl | Hr]; [left | right];
      eapply eye_close_monotone; eauto. }
  assert (Hv : snd (calculate_hand_motion self2 (to_pixels tip w h))
               = snd (calculate_hand_motion self1 (to_pixels tip w h)))
    by (rewrite !hand_motion_velocity, Hhist, Hmax; reflexivity).
  rewrite Hnear2, Hv. cbn [andb].
  replace (Cmp.geb _ _) with true by (symmetry; apply geb_ge; lra).
  eexists; split; [reflexivity |].
  rewrite <- Hstate, !history_after_motion, Hhist, Hmax. reflexivity.
Qed.

Lemma loosening_thresholds_keeps_detection_witness :
  exists s2,
    detect_eye_rubbing
      (set_hand_position_history (init looser_config false)
                                 [(0.3 * 640, 0.3 * 480)])
      (Some (create_mock_face_landmarks 0.0))
      (Some (create_mock_hand_landmarks 0.34 0.32 (-0.01))) 640 480
    = Some (s2, true)
    /\ hand_position_history s2
       = hand_position_history
           (set_hand_position_history monitor_mid_episode
              [(0.3 * 640, 0.3 * 480); (0.34 * 640, 0.32 * 480)]).
Proof.
  apply (loosening_thresholds_keeps_detection
           monitor_mid_episode
           (set_hand_position_history (init looser_config false)
                                      [(0.3 * 640, 0.3 * 480)])
           (Some (create_mock_face_landmarks 0.0))
           (Some (create_mock_hand_landmarks 0.34 0.32 (-0.01))) 640 480
           _);
    try reflexivity;
    try (unfold monitor_mid_episode, looser_config; read_fields; lra).
  exact second_sample_detects.
Defined.

(* ================================================================== *)
(** * Eye regions stay inside the frame *)

Lemma mapM_some {A B} (f : A -> Exc B) xs :
  forall ys, mapM f xs = Some ys ->
             length ys = length xs
             /\ (forall b, In b ys -> exists a, In a xs /\ f a = Some b).
Proof.
  induction xs as [| a xs IH]; intros ys; cbn [mapM].
  - intros [= <-]. split; [reflexivity | intros b []].
  - destruct (f a) as [b0 |] eqn:Hfa; [| discriminate]. cbn [bind].
    destruct (mapM f xs) as [bs |]; [| discriminate]. cbn [bind ret].
    intros [= <-]. destruct (IH bs eq_refl) as [Hlen Hin].
    split; [cbn [length]; now rewrite Hlen |].
    intros b [<- | Hb].
    + exists a. split; [now left | exact Hfa].
    + destruct (Hin b Hb) as (a' & Ha' & Hfa'). exists a'. split;
        [now right | exact Hfa'].
Qed.

Lemma np_mean_between lo hi l :
  l <> [] ->
  Forall (fun v => lo <= v <= hi) l ->
  lo <= np_mean l <= hi.
Proof.
  intros Hne Hall.
  assert (Hsum : INR (length l) * lo <= np_sum l <= INR (length l) * hi).
  { induction Hall as [| v l Hv Hl IH].
    - unfold np_sum; cbn [length fold_right INR]. lra.
    - change (np_sum (v :: l)) with (v + np_sum l).
      change (length (v :: l)) with (S (length l)). rewrite S_INR.
      destruct l as [| u l].
      + unfold np_sum; cbn [length fold_right INR]. lra.
      + specialize (IH ltac:(discriminate)). lra. }
  assert (Hn : 0 < INR (length l))
    by (apply lt_0_INR; destruct l; [congruence | cbn; lia]).
  unfold np_mean, Rdiv.
  assert (Hinv : 0 < / INR (length l)) by now apply Rinv_0_lt_compat.
  assert (Hone : INR (length l) * / INR (length l) = 1)
    by (apply Rinv_r; lra).
  assert (Hlo : INR (length l) * lo * / INR (length l)
                <= np_sum l * / INR (length l))
    by (apply Rmult_le_compat_r; lra).
  assert (Hhi : np_sum l * / INR (length l)
                <= INR (length l) * hi * / INR (length l))
    by (apply Rmult_le_compat_r; lra).
  replace (INR (length l) * lo * / INR (length l))
    with (lo * (INR (length l) * / INR (length l))) in Hlo by ring.
  replace (INR (length l) * hi * / INR (length l))
    with (hi * (INR (length l) * / INR (length l))) in Hhi by ring.
  rewrite Hone in Hlo, Hhi. lra.
Qed.

Lemma center_in_frame lms (w h : Z) :
  lms <> [] ->
  (0 <= w)%Z -> (0 <= h)%Z ->
  (forall lm, In lm lms ->
              0 <= Landmark.x lm <= 1 /\ 0 <= Landmark.y lm <= 1) ->
  let center := np_mean_axis0 (map (fun lm => to_pixels lm w h) lms) in
  0 <= fst center <= IZR w /\ 0 <= snd center <= IZR h.
Proof.
  intros Hne Hw Hh Hin center. subst center.
  apply IZR_le in Hw, Hh.
  unfold np_mean_axis0; cbn [fst snd]. rewrite !map_map.
  split; apply np_mean_between;
    try (destruct lms; [congruence | discriminate]);
    apply Forall_forall; intros v Hv; apply in_map_iff in Hv;
    destruct Hv as (lm & <- & Hlm); destruct (Hin lm Hlm) as [Hx Hy];
    unfold to_pixels; cbn [fst snd]; nra.
Qed.

(** X22.  When the eye landmarks of a face are normalized, with [x] and
    [y] between 0 and 1, the two eye centres [get_eye_regions] returns lie
    inside the frame: between 0 and the width, and between 0 and the
    height. *)
Theorem eye_centers_inside_frame face (w h : Z) lc rc ld rd :
  (0 <= w)%Z -> (0 <= h)%Z ->
  (forall idx lm,
      In idx (left_eye_indices ++ right_eye_indices) ->
      landmark face idx = Some lm ->
      0 <= Landmark.x lm <= 1 /\ 0 <= Landmark.y lm <= 1) ->
  get_eye_regions face w h = Some (lc, rc, ld, rd) ->
  (0 <= fst lc <= IZR w /\ 0 <= snd lc <= IZR h)
  /\ (0 <= fst rc <= IZR w /\ 0 <= snd rc <= IZR h).
Proof.
  intros Hw Hh Hnorm. unfold get_eye_regions.
  destruct (mapM (landmark face) left_eye_indices) as [ls |] eqn:Hleft;
    [| discriminate].
  destruct (mapM (landmark face) right_eye_indices) as [rs |] eqn:Hright;
    [| discriminate].
  cbn [bind ret]. intros [= <- <- _ _].
  destruct (mapM_some _ _ _ Hleft) as [Hlenl Hinl].
  destruct (mapM_some _ _ _ Hright) as [Hlenr Hinr].
  split; apply center_in_frame; try assumption.
  - destruct ls; [discriminate Hlenl | discriminate].
  - intros lm Hlm. destruct (Hinl lm Hlm) as (idx & Hidx & Hget).
    apply (Hnorm idx lm); [apply in_or_app; now left | exact Hget].
  - destruct rs; [discriminate Hlenr | discriminate].
  - intros lm Hlm. destruct (Hinr lm Hlm) as (idx & Hidx & Hget).
    apply (Hnorm idx lm); [apply in_or_app; now right | exact Hget].
Qed.

Lemma eye_centers_inside_frame_witness :
  (0 <= fst (0.3 * 640, 0.3 * 480) <= IZR 640
   /\ 0 <= snd (0.3 * 640, 0.3 * 480) <= IZR 480)
  /\ (0 <= fst (0.7 * 640, 0.3 * 480) <= IZR 640
      /\ 0 <= snd (0.7 * 640, 0.3 * 480) <= IZR 480).
Proof.
  apply (eye_centers_inside_frame (create_mock_face_landmarks 0.0) 640 480
           (0.3 * 640, 0.3 * 480) (0.7 * 640, 0.3 * 480) 0.0 0.0).
  - lia.
  - lia.
  - intros idx lm Hin Hget.
    apply in_app_or in Hin. destruct Hin as [Hin | Hin].
    + rewrite (proj1 (mock_face_eyes_at 0.0) idx Hin) in Hget.
      injection Hget as <-. cbn [Landmark.x Landmark.y]. lra.
    + rewrite (proj2 (mock_face_eyes_at 0.0) idx Hin) in Hget.
      injection Hget as <-. cbn [Landmark.x Landmark.y]. lra.
  - exact (get_eye_regions_eyes_at _ _ _ 640 480 (mock_face_eyes_at 0.0)).
Defined.
